(** * BatchRouter Python SDK: request mediation layer

    A shallow embedding of [batchrouter/exceptions.py], [batchrouter/client.py],
    [batchrouter/batches.py], [batchrouter/datasets.py] and
    [batchrouter/models.py], followed by the properties of the error
    translation, the credential check, the request construction and the
    resource facades.

    Python values decoded from JSON are an inductive type whose objects are
    finite maps; the methods that talk to the transport or raise run in a
    state-and-exception monad over a world holding the process environment
    and the chronological list of transport events. *)

From Stdlib Require Import ZArith String Ascii DecimalString.
From Stdlib Require Import Floats.SpecFloat.
From stdpp Require Import base option list gmap strings.

Local Set Warnings "-register-all".
Local Open Scope string_scope.
Local Open Scope Z_scope.

(** ** Python values *)

(** What [json.loads] produces, and what the facades put in request bodies:
    [None], [bool], [int], [float], [str], [list] and [dict] with string
    keys. *)
Inductive pyval : Type :=
| PNone
| PBool (b : bool)
| PInt (z : Z)
| PFloat (f : spec_float)
| PStr (s : string)
| PList (l : list pyval)
| PDict (d : gmap string pyval).

(** [bool(s)] for a [str]. *)
Definition str_truthy (s : string) : bool :=
  match s with
  | EmptyString => false
  | String _ _ => true
  end.

(** [bool(x)] for [x : str | None]. *)
Definition opt_str_truthy (o : option string) : bool :=
  match o with
  | None => false
  | Some s => str_truthy s
  end.

(** [bool(d)] for a [dict]: [len(d) != 0]. *)
Definition dict_truthy {A} (d : gmap string A) : bool :=
  negb (Nat.eqb (size d) 0).

(** [bool(d)] for [d : dict | None]. *)
Definition opt_dict_truthy {A} (o : option (gmap string A)) : bool :=
  match o with
  | None => false
  | Some d => dict_truthy d
  end.

(** [bool(f)] for a [float]: only the two zeros are falsy. *)
Definition float_truthy (f : spec_float) : bool :=
  match f with
  | S754_zero _ => false
  | _ => true
  end.

(** Python truth value testing on decoded JSON. *)
Definition truthy (v : pyval) : bool :=
  match v with
  | PNone => false
  | PBool b => b
  | PInt z => negb (z =? 0)
  | PFloat f => float_truthy f
  | PStr s => str_truthy s
  | PList l => match l with [] => false | _ :: _ => true end
  | PDict d => dict_truthy d
  end.

(** [str(n)] for an [int]. *)
Definition str_of_int (n : Z) : string :=
  NilZero.string_of_int (Z.to_int n).

(** [s.startswith(p)]. *)
Definition startswith (s p : string) : bool := String.prefix p s.

(** [sub in s]. *)
Definition contains (s sub : string) : bool :=
  match index 0 sub s with
  | Some _ => true
  | None => false
  end.

(** [s.rstrip(chars)]: drop the longest suffix made of characters of
    [chars]. *)
Fixpoint rstrip (chars : string) (s : string) : string :=
  match s with
  | EmptyString => EmptyString
  | String c s' =>
      match rstrip chars s' with
      | EmptyString =>
          if contains chars (String c EmptyString) then EmptyString
          else String c EmptyString
      | r => String c r
      end
  end.

(** ** exceptions.py *)

Module exceptions.

(** The five classes of the hierarchy; every one is a subclass of
    [BatchRouterError]. *)
Inductive error_class : Set :=
| BatchRouterError_cls
| AuthenticationError_cls
| NotFoundError_cls
| ValidationError_cls
| ServerError_cls.

(** An instance: its class and the two attributes set by
    [BatchRouterError.__init__]. *)
Record error : Type := mk_error {
  cls : error_class;
  message : pyval;
  status_code : option Z
}.

(** [BatchRouterError.__init__(self, message, status_code=None)], run on an
    instance of class [c]. *)
Definition base_init (c : error_class) (message : pyval)
    (status_code : option Z) : error :=
  mk_error c message status_code.

Definition BatchRouterError (message : pyval) (status_code : option Z) : error :=
  base_init BatchRouterError_cls message status_code.

(** The four subclasses call [super().__init__(message, status_code=k)]
    with a literal [k]; their [__init__] takes no status code. *)
Definition AuthenticationError (message : pyval) : error :=
  base_init AuthenticationError_cls message (Some 401).

Definition NotFoundError (message : pyval) : error :=
  base_init NotFoundError_cls message (Some 404).

Definition ValidationError (message : pyval) : error :=
  base_init ValidationError_cls message (Some 422).

Definition ServerError (message : pyval) : error :=
  base_init ServerError_cls message (Some 500).

(** Default values of the [message] parameter. *)
Definition AuthenticationError_default : string := "Invalid or missing API key".
Definition NotFoundError_default : string := "Resource not found".
Definition ValidationError_default : string := "Validation failed".
Definition ServerError_default : string := "Server error".

End exceptions.

(** A raised exception: one of the SDK's, or any other subclass of
    [Exception] (builtin, transport or pydantic), known by its class name. *)
Inductive exn : Type :=
| SdkError (e : exceptions.error)
| PyExc (name : string).

(** ** Results, the world and the monad *)

Inductive Result (A : Type) : Type :=
| Ok (a : A)
| Raise (e : exn).
Arguments Ok {A} a.
Arguments Raise {A} e.

(** The transport library's objects, as far as the SDK touches them. *)
Module httpx.

(** A file part of a multipart upload: [(filename, fileobj, content_type)],
    the file object given by the bytes it holds. *)
Record FilePart : Type := mk_FilePart {
  filename : string;
  fileobj : list Byte.byte;
  content_type : string
}.

(** The arguments of [httpx.Client.request]. *)
Record Request : Type := mk_Request {
  method : string;
  url : string;
  headers : gmap string string;
  params : option (gmap string pyval);
  json : option (gmap string pyval);
  data : option (gmap string pyval);
  files : option (gmap string FilePart)
}.

(** The attributes of [httpx.Response] the SDK reads; [json_result] is what
    a call of [response.json()] gives. *)
Record Response : Type := mk_Response {
  status_code : Z;
  is_success : bool;
  text : string;
  content : list Byte.byte;
  json_result : Result pyval
}.

(** The object made by [httpx.Client(timeout=...)]. *)
Record Client : Type := mk_Client { timeout : spec_float }.

(** How httpx itself computes [is_success] from the status code. *)
Definition status_is_success (c : Z) : bool := (200 <=? c) && (c <=? 299).

End httpx.

(** What the SDK does to the outside, in the order it does it. *)
Inductive Event : Type :=
| Ev_Client (timeout : spec_float)    (* httpx.Client(timeout=timeout) *)
| Ev_request (req : httpx.Request)    (* self._client.request(...) *)
| Ev_json                             (* response.json() *)
| Ev_close.                           (* self._client.close() *)

Record World : Type := mk_World {
  os_environ : gmap string string;
  events : list Event
}.

Definition log (ev : Event) (w : World) : World :=
  mk_World (os_environ w) (events w ++ [ev]).

Definition M (A : Type) : Type := World → Result A * World.

Definition ret {A} (a : A) : M A := λ w, (Ok a, w).

Definition bind {A B} (m : M A) (k : A → M B) : M B :=
  λ w, match m w with
       | (Ok a, w') => k a w'
       | (Raise e, w') => (Raise e, w')
       end.

Definition raise {A} (e : exn) : M A := λ w, (Raise e, w).

Definition raise_sdk {A} (e : exceptions.error) : M A := raise (SdkError e).

(** [try: body except Exception: handler]. *)
Definition try_except {A} (body handler : M A) : M A :=
  λ w, match body w with
       | (Ok a, w') => (Ok a, w')
       | (Raise _, w') => handler w'
       end.

Definition emit (ev : Event) : M unit := λ w, (Ok tt, log ev w).

(** [os.environ.get(name)]. *)
Definition os_environ_get (name : string) : M (option string) :=
  λ w, (Ok (os_environ w !! name), w).

#[export] Instance M_ret : MRet M := @ret.
#[export] Instance M_bind : MBind M := λ A B k m, bind m k.

(** [[f(x) for x in xs]]: left to right, stopping at the first exception. *)
Fixpoint mapM {A B} (f : A → M B) (xs : list A) : M (list B) :=
  match xs with
  | [] => mret []
  | x :: xs' => y ← f x; ys ← mapM f xs'; mret (y :: ys)
  end.

(** ** types.py *)

Module types.

(** A [datetime.datetime] value, by its fields; [tz_offset] is the UTC
    offset in seconds of an aware value. *)
Record datetime : Type := mk_datetime {
  year : Z; month : Z; day : Z;
  hour : Z; minute : Z; second : Z; microsecond : Z;
  tz_offset : option Z
}.

Record Dataset : Type := mk_Dataset {
  Dataset_id : string;
  Dataset_name : string;
  Dataset_description : option string;
  Dataset_file_size : option Z;
  Dataset_record_count : option Z;
  Dataset_status : string;
  Dataset_validation_error : option string;
  Dataset_created_at : datetime;
  Dataset_updated_at : option datetime
}.

Record DatasetUploadResponse : Type := mk_DatasetUploadResponse {
  DatasetUploadResponse_id : string;
  DatasetUploadResponse_name : string;
  DatasetUploadResponse_status : string
}.

Record ModelProvider : Type := mk_ModelProvider {
  ModelProvider_id : string;
  ModelProvider_name : string;
  ModelProvider_batch_input_price_per_1m : option spec_float;
  ModelProvider_batch_output_price_per_1m : option spec_float;
  ModelProvider_is_batch_supported : bool
}.

Record Model : Type := mk_Model {
  Model_name : string;
  Model_display_name : option string;
  Model_description : option string;
  Model_context_window : option Z;
  Model_max_output_tokens : option Z;
  Model_capabilities : list string;
  Model_is_deprecated : bool;
  Model_release_date : option string;
  Model_providers : list ModelProvider
}.

Record BatchCreateResponse : Type := mk_BatchCreateResponse {
  BatchCreateResponse_id : string;
  BatchCreateResponse_status : string;
  BatchCreateResponse_model : string;
  BatchCreateResponse_provider_id : option string;
  BatchCreateResponse_provider_name : option string;
  BatchCreateResponse_estimated_cost : option spec_float
}.

End types.

(** ** What the SDK takes from outside the repository

    - [py_str]: the builtin [str()] on a decoded JSON value;
    - [transport]: the answer of [httpx.Client.request] to a request, given
      the world it is sent in (it may raise, e.g. on a connection failure);
    - [validate_*]: pydantic's [BaseModel.__init__] on keyword arguments, for the classes
      declared in [types.py], which raises on a missing or mistyped field. *)
Class Platform : Type := {
  py_str : pyval → string;
  transport : World → httpx.Request → Result httpx.Response;
  validate_Dataset : gmap string pyval → Result types.Dataset;
  validate_DatasetUploadResponse :
    gmap string pyval → Result types.DatasetUploadResponse;
  validate_Model : gmap string pyval → Result types.Model;
  validate_BatchCreateResponse :
    gmap string pyval → Result types.BatchCreateResponse
}.

(** Lifting a pure result into the monad. *)
Definition of_result {A} (r : Result A) : M A := λ w, (r, w).

(** [Cls( **v )]: [v] must be a mapping, then pydantic validates its items. *)
Definition construct {A} (validate : gmap string pyval → Result A)
    (v : pyval) : M A :=
  match v with
  | PDict d => of_result (validate d)
  | _ => raise (PyExc "TypeError")
  end.

(** [v.get(key, dflt)]: only a [dict] has the attribute [get]. *)
Definition py_get (v : pyval) (key : string) (dflt : pyval) : M pyval :=
  match v with
  | PDict d => mret (default dflt (d !! key))
  | _ => raise (PyExc "AttributeError")
  end.

(** [iter(v)], drained: the items of a list, the characters of a string, the
    keys of a dict (in the map's order, not in insertion order); the other
    values are not iterable. *)
Definition py_iter (v : pyval) : M (list pyval) :=
  match v with
  | PList l => mret l
  | PStr s => mret ((λ c, PStr (String c EmptyString)) <$> list_ascii_of_string s)
  | PDict d => mret (PStr <$> (map_to_list d).*1)
  | _ => raise (PyExc "TypeError")
  end.

(** ** client.py *)

Module BatchRouter.

Definition DEFAULT_BASE_URL : string := "https://api.batchrouter.ai".

(** [60.0] as a binary64 value: 60 = 8444249301319680 * 2^-47. *)
Definition DEFAULT_TIMEOUT : spec_float :=
  S754_finite false 8444249301319680 (-47).

(** The attributes of a constructed client. The three facades hold a
    reference to the client and nothing else, so their methods below take
    the client itself. *)
Record t : Type := mk {
  _api_key : string;
  _base_url : string;
  _timeout : spec_float;
  _client : httpx.Client
}.

(** [httpx.Client(timeout=timeout)]. *)
Definition httpx_Client (timeout : spec_float) : M httpx.Client :=
  emit (Ev_Client timeout);; mret (httpx.mk_Client timeout).

(** [BatchRouter.__init__]; the defaults of [base_url] and [timeout] are
    [DEFAULT_BASE_URL] and [DEFAULT_TIMEOUT], the default of [api_key] is
    [None]. *)
Definition __init__ (api_key : option string) (base_url : string)
    (timeout : spec_float) : M t :=
  (* self._api_key = api_key or os.environ.get("BATCHROUTER_API_KEY") *)
  key ← (if opt_str_truthy api_key then mret api_key
         else os_environ_get "BATCHROUTER_API_KEY");
  (* if not self._api_key: raise *)
  if negb (opt_str_truthy key) then
    raise_sdk (exceptions.AuthenticationError (PStr
      "API key is required. Pass api_key parameter or set BATCHROUTER_API_KEY env var."))
  else
    let k := default EmptyString key in
    if negb (startswith k "br_") then
      raise_sdk (exceptions.AuthenticationError (PStr
        "Invalid API key format. API keys should start with 'br_'."))
    else
      client ← httpx_Client timeout;
      mret (mk k (rstrip "/" base_url) timeout client).

Definition _get_headers (self : t) : gmap string string :=
  <["Authorization" := "Bearer " +:+ _api_key self]>
  (<["Content-Type" := "application/json"]>
  (<["User-Agent" := "batchrouter-python/0.1.0"]> ∅)).

Section with_platform.
Context `{Platform}.

(** [response.json()]. *)
Definition Response_json (response : httpx.Response) : M pyval :=
  emit Ev_json;; of_result (httpx.json_result response).

(** [self._client.request(...)]. *)
Definition Client_request (req : httpx.Request) : M httpx.Response :=
  λ w, (transport w req, log (Ev_request req) w).

Definition _handle_error (response : httpx.Response) : M unit :=
  let c := httpx.status_code response in
  message ← try_except
    (error_data ← Response_json response;
     py_get error_data "detail" (PStr (py_str error_data)))
    (mret (PStr (if str_truthy (httpx.text response)
                 then httpx.text response
                 else "HTTP " +:+ str_of_int c)));
  if c =? 401 then raise_sdk (exceptions.AuthenticationError message)
  else if c =? 404 then raise_sdk (exceptions.NotFoundError message)
  else if c =? 422 then raise_sdk (exceptions.ValidationError message)
  else if 500 <=? c then raise_sdk (exceptions.ServerError message)
  else raise_sdk (exceptions.BatchRouterError message (Some c)).

Definition _request (self : t) (method path : string)
    (params json data : option (gmap string pyval))
    (files : option (gmap string httpx.FilePart)) : M pyval :=
  let url := _base_url self +:+ "/api" +:+ path in
  let headers := _get_headers self in
  (* if files: del headers["Content-Type"] *)
  let headers := if opt_dict_truthy files
                 then delete "Content-Type" headers else headers in
  response ← Client_request
    (httpx.mk_Request method url headers params json data files);
  (if negb (httpx.is_success response) then _handle_error response
   else mret tt);;
  if httpx.status_code response =? 204 then mret PNone
  else Response_json response.

Definition _request_raw (self : t) (method path : string)
    : M (list Byte.byte) :=
  let url := _base_url self +:+ "/api" +:+ path in
  let headers := _get_headers self in
  response ← Client_request
    (httpx.mk_Request method url headers None None None None);
  (if negb (httpx.is_success response) then _handle_error response
   else mret tt);;
  mret (httpx.content response).

Definition close (self : t) : M unit := emit Ev_close.

End with_platform.

End BatchRouter.

(** ** batches.py *)

Module Batches.

(** Default of the [model] parameter of [create]. *)
Definition model_default : string := "auto".

(** The [payload] dict built by [create] before the request. *)
Definition create_payload (dataset_name model : string)
    (provider description : option string) : gmap string pyval :=
  let payload : gmap string pyval :=
    <["dataset_name" := PStr dataset_name]> (<["model" := PStr model]> ∅) in
  (* if provider: payload["provider"] = provider *)
  let payload :=
    if opt_str_truthy provider
    then <["provider" := PStr (default EmptyString provider)]> payload
    else payload in
  (* if description: payload["description"] = description *)
  let payload :=
    if opt_str_truthy description
    then <["description" := PStr (default EmptyString description)]> payload
    else payload in
  payload.

Section with_platform.
Context `{Platform}.

Definition create (self : BatchRouter.t) (dataset_name model : string)
    (provider description : option string) : M types.BatchCreateResponse :=
  let payload := create_payload dataset_name model provider description in
  response ← BatchRouter._request self "POST" "/v1/batches"
               None (Some payload) None None;
  construct validate_BatchCreateResponse response.

End with_platform.

End Batches.

(** ** datasets.py *)

Module Datasets.

(** Defaults of [list]. *)
Definition page_default : Z := 1.
Definition page_size_default : Z := 20.

(** The loop of [get_by_name]: return the first dataset whose name is
    [name], or [None] when the loop runs to its end. *)
Fixpoint scan (name : string) (datasets : list types.Dataset)
    : option types.Dataset :=
  match datasets with
  | [] => None
  | dataset :: rest =>
      if String.eqb (types.Dataset_name dataset) name then Some dataset
      else scan name rest
  end.

Section with_platform.
Context `{Platform}.

Definition _upload_file (self : BatchRouter.t) (file : list Byte.byte)
    (name : string) (description : option string)
    : M types.DatasetUploadResponse :=
  let files : gmap string httpx.FilePart :=
    {[ "file" := httpx.mk_FilePart name file "application/jsonl" ]} in
  let data : gmap string pyval := {[ "name" := PStr name ]} in
  let data :=
    if opt_str_truthy description
    then <["description" := PStr (default EmptyString description)]> data
    else data in
  response ← BatchRouter._request self "POST" "/v1/datasets"
               None None (Some data) (Some files);
  construct validate_DatasetUploadResponse response.

(** [Datasets.list] (the name [list] is taken by the list type). *)
Definition list_ (self : BatchRouter.t) (page page_size : Z)
    : M (list types.Dataset) :=
  response ← BatchRouter._request self "GET" "/v1/datasets"
               (Some (<["page" := PInt page]>
                      (<["page_size" := PInt page_size]> ∅)))
               None None None;
  data ← py_get response "data" (PList []);
  items ← py_iter data;
  mapM (construct validate_Dataset) items.

Definition get_by_name (self : BatchRouter.t) (name : string)
    : M (option types.Dataset) :=
  datasets ← list_ self page_default 100;
  mret (scan name datasets).

End with_platform.

End Datasets.

(** ** models.py *)

Module Models.

Section with_platform.
Context `{Platform}.

Definition get (self : BatchRouter.t) (name : string)
    : M (option types.Model) :=
  response ← BatchRouter._request self "GET"
               ("/v1/routing/models/" +:+ name) None None None None;
  if truthy response then
    model ← construct validate_Model response;
    mret (Some model)
  else mret None.

End with_platform.

End Models.

(** * Auxiliary definitions for the statements *)

(** ** Reading the event list *)

(** The requests handed to the transport, in order. *)
Fixpoint requests_of (evs : list Event) : list httpx.Request :=
  match evs with
  | [] => []
  | Ev_request req :: evs' => req :: requests_of evs'
  | _ :: evs' => requests_of evs'
  end.

(** The number of [response.json()] calls. *)
Fixpoint decodes_of (evs : list Event) : nat :=
  match evs with
  | [] => O
  | Ev_json :: evs' => S (decodes_of evs')
  | _ :: evs' => decodes_of evs'
  end.

(** The number of transport clients constructed. *)
Fixpoint clients_of (evs : list Event) : nat :=
  match evs with
  | [] => O
  | Ev_Client _ :: evs' => S (clients_of evs')
  | _ :: evs' => clients_of evs'
  end.

(** ** The error translation, as two pure functions

    [error_message] is the value bound to [message] by the [try]/[except] of
    [_handle_error], [select_error] its chain of status tests. *)

Definition error_message `{Platform} (response : httpx.Response) : pyval :=
  match httpx.json_result response with
  | Ok (PDict d) => default (PStr (py_str (PDict d))) (d !! "detail")
  | _ =>
      PStr (if str_truthy (httpx.text response) then httpx.text response
            else "HTTP " +:+ str_of_int (httpx.status_code response))
  end.

Definition select_error (c : Z) (message : pyval) : exceptions.error :=
  if c =? 401 then exceptions.AuthenticationError message
  else if c =? 404 then exceptions.NotFoundError message
  else if c =? 422 then exceptions.ValidationError message
  else if 500 <=? c then exceptions.ServerError message
  else exceptions.BatchRouterError message (Some c).

(** The request object [_request] hands to the transport. *)
Definition request_of (self : BatchRouter.t) (method path : string)
    (params json data : option (gmap string pyval))
    (files : option (gmap string httpx.FilePart)) : httpx.Request :=
  httpx.mk_Request method
    (BatchRouter._base_url self +:+ "/api" +:+ path)
    (if opt_dict_truthy files
     then delete "Content-Type" (BatchRouter._get_headers self)
     else BatchRouter._get_headers self)
    params json data files.

(** ** The credential check, as pure functions *)

(** The value assigned to [self._api_key]:
    [api_key or os.environ.get("BATCHROUTER_API_KEY")]. *)
Definition resolved_key (api_key : option string) (w : World) : option string :=
  if opt_str_truthy api_key then api_key
  else os_environ w !! "BATCHROUTER_API_KEY".

(** The two messages of the constructor. *)
Definition key_required_message : string :=
  "API key is required. Pass api_key parameter or set BATCHROUTER_API_KEY env var.".

Definition key_format_message : string :=
  "Invalid API key format. API keys should start with 'br_'.".

(** ** Computations that leave the world alone *)

Definition stateless {A} (m : M A) : Prop := ∀ w, (m w).2 = w.

(** ** Strings *)

(** Every character of [s] is one of [chars]. *)
Fixpoint all_in (chars s : string) : bool :=
  match s with
  | EmptyString => true
  | String c s' => contains chars (String c EmptyString) && all_in chars s'
  end.

(** The last character of [s], if any. *)
Fixpoint last_char (s : string) : option ascii :=
  match s with
  | EmptyString => None
  | String c EmptyString => Some c
  | String _ s' => last_char s'
  end.

(** [s] ends in one of [chars]. *)
Definition ends_in (chars s : string) : bool :=
  match last_char s with
  | Some c => contains chars (String c EmptyString)
  | None => false
  end.

(** ** The tables of the specification *)

(** The status-to-kind table: which class the error raised for status [c]
    has, and for the catch-all which status it carries. *)
Definition selected_by_status (c : Z) (e : exceptions.error) : Prop :=
  (c = 401 → exceptions.cls e = exceptions.AuthenticationError_cls) ∧
  (c = 404 → exceptions.cls e = exceptions.NotFoundError_cls) ∧
  (c = 422 → exceptions.cls e = exceptions.ValidationError_cls) ∧
  (500 ≤ c → exceptions.cls e = exceptions.ServerError_cls) ∧
  (c ≠ 401 → c ≠ 404 → c ≠ 422 → c < 500 →
   exceptions.cls e = exceptions.BatchRouterError_cls ∧
   exceptions.status_code e = Some c).

(** The three tiers of the message fallback, for a message [m] extracted
    from [response]. *)
Definition three_tier_message (response : httpx.Response) (m : pyval) : Prop :=
  (∀ d v, httpx.json_result response = Ok (PDict d) →
          d !! "detail" = Some v → m = v) ∧
  (∀ x, httpx.json_result response = Raise x →
        httpx.text response ≠ EmptyString →
        m = PStr (httpx.text response)) ∧
  (∀ x, httpx.json_result response = Raise x →
        httpx.text response = EmptyString →
        m = PStr ("HTTP " +:+ str_of_int (httpx.status_code response))).

(** ** A concrete platform for worked examples

    A transport that answers every request with one fixed result, and
    validators that accept a subset of what pydantic accepts: exactly the
    required fields, strings as [str], and [created_at] as a Unix timestamp
    within the first day of the epoch. [str()] is exact on scalars and
    empty containers. *)
Module Sample.

Definition str (v : pyval) : string :=
  match v with
  | PNone => "None"
  | PBool true => "True"
  | PBool false => "False"
  | PInt z => str_of_int z
  | PStr s => s
  | PList [] => "[]"
  | PDict d => if dict_truthy d then "{...}" else "{}"
  | PList _ => "[...]"
  | PFloat _ => "<float>"
  end.

Definition invalid {A} : Result A := Raise (PyExc "pydantic.ValidationError").

Definition validate_Dataset (d : gmap string pyval) : Result types.Dataset :=
  match d !! "id", d !! "name", d !! "status", d !! "created_at" with
  | Some (PStr i), Some (PStr n), Some (PStr s), Some (PInt ts) =>
      if (0 <=? ts) && (ts <? 86400) && Nat.eqb (size d) 4 then
        Ok (types.mk_Dataset i n None None None s None
              (types.mk_datetime 1970 1 1 (ts / 3600) (ts mod 3600 / 60)
                 (ts mod 60) 0 (Some 0))
              None)
      else invalid
  | _, _, _, _ => invalid
  end.

Definition validate_DatasetUploadResponse (d : gmap string pyval)
    : Result types.DatasetUploadResponse :=
  match d !! "id", d !! "name", d !! "status" with
  | Some (PStr i), Some (PStr n), Some (PStr s) =>
      if Nat.eqb (size d) 3 then Ok (types.mk_DatasetUploadResponse i n s)
      else invalid
  | _, _, _ => invalid
  end.

Definition validate_Model (d : gmap string pyval) : Result types.Model :=
  match d !! "name" with
  | Some (PStr n) =>
      if Nat.eqb (size d) 1
      then Ok (types.mk_Model n None None None None [] false None [])
      else invalid
  | _ => invalid
  end.

Definition validate_BatchCreateResponse (d : gmap string pyval)
    : Result types.BatchCreateResponse :=
  match d !! "id", d !! "status", d !! "model" with
  | Some (PStr i), Some (PStr s), Some (PStr m) =>
      if Nat.eqb (size d) 3
      then Ok (types.mk_BatchCreateResponse i s m None None None)
      else invalid
  | _, _, _ => invalid
  end.

Definition platform (answer : Result httpx.Response) : Platform :=
  Build_Platform str (λ _ _, answer)
    validate_Dataset validate_DatasetUploadResponse
    validate_Model validate_BatchCreateResponse.

(** The response built by the test suite's [_make_response]: success is
    derived from the status, and [json()] raises unless a body is given. *)
Definition make_response (status_code : Z) (json_data : option pyval)
    (text : string) : httpx.Response :=
  httpx.mk_Response status_code (httpx.status_is_success status_code) text []
    (match json_data with
     | Some v => if truthy v then Ok v else Raise (PyExc "Exception")
     | None => Raise (PyExc "Exception")
     end).

(** A success response carrying a decoded body. *)
Definition ok_response (body : pyval) : httpx.Response :=
  httpx.mk_Response 200 true EmptyString [] (Ok body).

Definition detail (s : string) : pyval := PDict {[ "detail" := PStr s ]}.

(** A process with an empty environment that has done nothing yet. *)
Definition world0 : World := mk_World ∅ [].

(** The same with the credential variable set. *)
Definition world_env (key : string) : World :=
  mk_World {[ "BATCHROUTER_API_KEY" := key ]} [].

(** The client the tests construct. *)
Definition client : BatchRouter.t :=
  BatchRouter.mk "br_test_key_123" "https://api.batchrouter.ai"
    BatchRouter.DEFAULT_TIMEOUT (httpx.mk_Client BatchRouter.DEFAULT_TIMEOUT).

Definition dataset_json (i n : string) : pyval :=
  PDict (<["id" := PStr i]> (<["name" := PStr n]>
        (<["status" := PStr "validated"]> {[ "created_at" := PInt 0 ]}))).

Definition dataset (i n : string) : types.Dataset :=
  types.mk_Dataset i n None None None "validated" None
    (types.mk_datetime 1970 1 1 0 0 0 0 (Some 0)) None.

End Sample.

(** * The rest of the SDK *)

(** ** types.py, continued *)

Module batch_types.

Record BatchJob : Type := mk_BatchJob {
  BatchJob_id : string;
  BatchJob_dataset_id : string;
  BatchJob_dataset_name : option string;
  BatchJob_model : string;
  BatchJob_provider_id : option string;
  BatchJob_provider_name : option string;
  BatchJob_status : string;
  BatchJob_description : option string;
  BatchJob_error_message : option string;
  BatchJob_request_count : option Z;
  BatchJob_completed_count : option Z;
  BatchJob_failed_count : option Z;
  BatchJob_input_tokens : option Z;
  BatchJob_output_tokens : option Z;
  BatchJob_estimated_cost : option spec_float;
  BatchJob_actual_cost : option spec_float;
  BatchJob_has_results : bool;
  BatchJob_has_errors : bool;
  BatchJob_created_at : types.datetime;
  BatchJob_submitted_at : option types.datetime;
  BatchJob_completed_at : option types.datetime
}.

End batch_types.

(** ** More of the outside

    - [validate_BatchJob]: pydantic's validation for [BatchJob];
    - [open_rb]: [open(path, "rb")], giving the bytes the file object holds,
      or raising (a missing file, a directory, ...);
    - [path_name]: [pathlib.Path(p).name], the final component of a path
      under the platform's path rules. *)
Class Files : Type := {
  validate_BatchJob : gmap string pyval → Result batch_types.BatchJob;
  open_rb : string → Result (list Byte.byte);
  path_name : string → string
}.

(** The [file] argument of [Datasets.upload]: a [str] or [Path], or a binary
    file object given by its bytes. *)
Inductive upload_source : Type :=
| FromPath (path : string)
| FromStream (content : list Byte.byte).

(** ** client.py: the context manager *)

Section context_manager.
Context `{Platform}.

Definition __enter__ (self : BatchRouter.t) : M BatchRouter.t := mret self.

(** [__exit__] closes the client and returns [None]. *)
Definition __exit__ (self : BatchRouter.t) : M unit := BatchRouter.close self.

(** [with mgr as client: body]: [__exit__] runs whether the body returns or
    raises; as it returns [None], an exception of the body is raised again
    after it. *)
Definition with_ {A} (mgr : BatchRouter.t) (body : BatchRouter.t → M A) : M A :=
  client ← __enter__ mgr;
  ((λ w, match body client w with
         | (Ok a, w1) =>
             match __exit__ mgr w1 with
             | (Ok _, w2) => (Ok a, w2)
             | (Raise e, w2) => (Raise e, w2)
             end
         | (Raise e, w1) =>
             match __exit__ mgr w1 with
             | (Ok _, w2) => (Raise e, w2)
             | (Raise e', w2) => (Raise e', w2)
             end
         end) : M A).

End context_manager.

(** ** datasets.py, batches.py and models.py: the other operations *)

Section facades.
Context `{Platform} `{Files}.

(** [Datasets.upload]. *)
Definition Datasets_upload (self : BatchRouter.t) (file : upload_source)
    (name description : option string) : M types.DatasetUploadResponse :=
  match file with
  | FromPath file_path =>
      (* if name is None: name = file_path.name *)
      let name := match name with
                  | None => path_name file_path
                  | Some n => n
                  end in
      f ← of_result (open_rb file_path);
      Datasets._upload_file self f name description
  | FromStream f =>
      match name with
      | None => raise (PyExc "ValueError")
      | Some n => Datasets._upload_file self f n description
      end
  end.

(** [Datasets.get]. *)
Definition Datasets_get (self : BatchRouter.t) (dataset_id : string)
    : M types.Dataset :=
  response ← BatchRouter._request self "GET" ("/v1/datasets/" +:+ dataset_id)
               None None None None;
  construct validate_Dataset response.

(** [Datasets.delete]: the value of the request is dropped. *)
Definition Datasets_delete (self : BatchRouter.t) (dataset_id : string)
    : M unit :=
  BatchRouter._request self "DELETE" ("/v1/datasets/" +:+ dataset_id)
    None None None None;;
  mret tt.

(** [Batches.list]. *)
Definition Batches_list (self : BatchRouter.t) (page page_size : Z)
    : M (list batch_types.BatchJob) :=
  response ← BatchRouter._request self "GET" "/v1/batches"
               (Some (<["page" := PInt page]>
                      (<["page_size" := PInt page_size]> ∅)))
               None None None;
  data ← py_get response "data" (PList []);
  items ← py_iter data;
  mapM (construct validate_BatchJob) items.

(** [Batches.get]. *)
Definition Batches_get (self : BatchRouter.t) (batch_id : string)
    : M batch_types.BatchJob :=
  response ← BatchRouter._request self "GET" ("/v1/batches/" +:+ batch_id)
               None None None None;
  construct validate_BatchJob response.

(** [Batches.cancel]. *)
Definition Batches_cancel (self : BatchRouter.t) (batch_id : string)
    : M batch_types.BatchJob :=
  response ← BatchRouter._request self "POST"
               ("/v1/batches/" +:+ batch_id +:+ "/cancel")
               None None None None;
  construct validate_BatchJob response.

(** [Batches.download_results]. *)
Definition Batches_download_results (self : BatchRouter.t) (batch_id : string)
    : M (list Byte.byte) :=
  BatchRouter._request_raw self "GET"
    ("/v1/batches/" +:+ batch_id +:+ "/results").

(** [Batches.download_errors]. *)
Definition Batches_download_errors (self : BatchRouter.t) (batch_id : string)
    : M (list Byte.byte) :=
  BatchRouter._request_raw self "GET"
    ("/v1/batches/" +:+ batch_id +:+ "/errors").

(** [Models.list]: the body itself is iterated. *)
Definition Models_list (self : BatchRouter.t) : M (list types.Model) :=
  response ← BatchRouter._request self "GET" "/v1/routing/models"
               None None None None;
  items ← py_iter response;
  mapM (construct validate_Model) items.

End facades.

(** ** Auxiliary definitions for the further statements *)

(** The form fields [_upload_file] sends. *)
Definition upload_data (name : string) (description : option string)
    : gmap string pyval :=
  if opt_str_truthy description
  then <["description" := PStr (default EmptyString description)]>
         ({[ "name" := PStr name ]} : gmap string pyval)
  else {[ "name" := PStr name ]}.

(** The file parts [_upload_file] sends. *)
Definition upload_files (name : string) (file : list Byte.byte)
    : gmap string httpx.FilePart :=
  {[ "file" := httpx.mk_FilePart name file "application/jsonl" ]}.

(** Item by item, [d] is what the validator makes of the object [item]. *)
Definition validated {A} (validate : gmap string pyval → Result A)
    (item : pyval) (d : A) : Prop :=
  ∃ fields, item = PDict fields ∧ validate fields = Ok d.

(** [item] is one the construction [Cls( **item )] raises on. *)
Definition rejected {A} (validate : gmap string pyval → Result A)
    (item : pyval) : Prop :=
  match item with
  | PDict fields => ∃ e, validate fields = Raise e
  | _ => True
  end.

(** From world [w] to world [w'] exactly one request went out, with this
    method and this path under the client's base URL, and with neither a
    JSON body nor form fields nor file parts. *)
Definition sent_bare (self : BatchRouter.t) (w w' : World)
    (method path : string) : Prop :=
  ∃ req,
    requests_of (events w') = (requests_of (events w) ++ [req])%list ∧
    httpx.method req = method ∧
    httpx.url req = BatchRouter._base_url self +:+ "/api" +:+ path ∧
    httpx.json req = None ∧ httpx.data req = None ∧ httpx.files req = None.

(** A file system with one file, and names taken after the last slash, for
    worked examples. *)
Module SampleFiles.

Fixpoint after_last_slash (s : string) : string :=
  match s with
  | EmptyString => EmptyString
  | String c s' =>
      if contains s' "/" then after_last_slash s'
      else if Ascii.eqb c "/" then s' else String c s'
  end.

Definition train_bytes : list Byte.byte := [Byte.x7b; Byte.x7d; Byte.x0a].

Definition open_rb (p : string) : Result (list Byte.byte) :=
  if String.eqb p "/data/train.jsonl" then Ok train_bytes
  else Raise (PyExc "FileNotFoundError").

Definition validate_BatchJob (d : gmap string pyval)
    : Result batch_types.BatchJob :=
  match d !! "id", d !! "dataset_id", d !! "model", d !! "status",
        d !! "created_at" with
  | Some (PStr i), Some (PStr ds), Some (PStr m), Some (PStr s),
    Some (PInt ts) =>
      if (0 <=? ts) && (ts <? 86400) && Nat.eqb (size d) 5 then
        Ok (batch_types.mk_BatchJob i ds None m None None s None None
              None None None None None None None false false
              (types.mk_datetime 1970 1 1 (ts / 3600) (ts mod 3600 / 60)
                 (ts mod 60) 0 (Some 0))
              None None)
      else Sample.invalid
  | _, _, _, _, _ => Sample.invalid
  end.

Definition files : Files :=
  Build_Files validate_BatchJob open_rb after_last_slash.

Definition upload_ok : httpx.Response :=
  Sample.ok_response
    (PDict (<["id" := PStr "ds_123"]> (<["name" := PStr "train.jsonl"]>
           {[ "status" := PStr "pending" ]}))).

End SampleFiles.

(** * Properties *)

(** ** The event list *)

Lemma requests_of_app (evs1 evs2 : list Event) :
  requests_of (evs1 ++ evs2) = (requests_of evs1 ++ requests_of evs2)%list.
Proof.
  induction evs1 as [|ev evs1 IH]; [done|].
  destruct ev; simpl; by rewrite ?IH.
Qed.

Lemma decodes_of_app (evs1 evs2 : list Event) :
  decodes_of (evs1 ++ evs2) = (decodes_of evs1 + decodes_of evs2)%nat.
Proof.
  induction evs1 as [|ev evs1 IH]; [done|].
  destruct ev; simpl; by rewrite ?IH.
Qed.

(** ** The monad's equations *)

Lemma run_bind {A B} (m : M A) (k : A → M B) w :
  (m ≫= k) w =
  match m w with
  | (Ok a, w') => k a w'
  | (Raise e, w') => (Raise e, w')
  end.
Proof. reflexivity. Qed.

Lemma run_bind_ok {A B} (m : M A) (k : A → M B) w a w' :
  m w = (Ok a, w') → (m ≫= k) w = k a w'.
Proof. intros Hm. by rewrite run_bind, Hm. Qed.

Lemma run_bind_raise {A B} (m : M A) (k : A → M B) w e w' :
  m w = (Raise e, w') → (m ≫= k) w = (Raise e, w').
Proof. intros Hm. by rewrite run_bind, Hm. Qed.

Lemma run_bind_inv_ok {A B} (m : M A) (k : A → M B) w b w2 :
  (m ≫= k) w = (Ok b, w2) →
  ∃ a w1, m w = (Ok a, w1) ∧ k a w1 = (Ok b, w2).
Proof.
  rewrite run_bind. destruct (m w) as [[a|e] w1]; [eauto|done].
Qed.

#[local] Arguments startswith : simpl never.
#[local] Arguments contains : simpl never.
#[local] Arguments rstrip : simpl never.
#[local] Arguments str_of_int : simpl never.

Ltac run :=
  unfold mbind, mret, M_bind, M_ret, bind, ret, raise_sdk, raise,
    try_except, emit, of_result, os_environ_get in *;
  simpl in *.

(** ** What the mediator's methods compute *)

Lemma handle_error_run `{Platform} (response : httpx.Response) (w : World) :
  BatchRouter._handle_error response w =
  (Raise (SdkError (select_error (httpx.status_code response)
                                 (error_message response))),
   log Ev_json w).
Proof.
  unfold BatchRouter._handle_error, BatchRouter.Response_json, error_message,
    select_error, py_get.
  run.
  destruct (httpx.json_result response) as [[]|]; simpl;
    repeat case_match; reflexivity.
Qed.

Lemma request_run `{Platform} self method path params json data files w :
  BatchRouter._request self method path params json data files w =
  match transport w (request_of self method path params json data files) with
  | Raise e =>
      (Raise e,
       log (Ev_request (request_of self method path params json data files)) w)
  | Ok response =>
      if httpx.is_success response then
        if httpx.status_code response =? 204 then
          (Ok PNone,
           log (Ev_request
                  (request_of self method path params json data files)) w)
        else
          (httpx.json_result response,
           log Ev_json
             (log (Ev_request
                     (request_of self method path params json data files)) w))
      else
        (Raise (SdkError (select_error (httpx.status_code response)
                                       (error_message response))),
         log Ev_json
           (log (Ev_request
                   (request_of self method path params json data files)) w))
  end.
Proof.
  unfold BatchRouter._request, BatchRouter.Client_request, request_of.
  rewrite run_bind. simpl.
  destruct (transport w _) as [response|e]; [|done].
  rewrite run_bind.
  destruct (httpx.is_success response); simpl.
  - unfold BatchRouter.Response_json. run. by case_match.
  - by rewrite handle_error_run.
Qed.

Lemma request_raw_run `{Platform} self method path w :
  BatchRouter._request_raw self method path w =
  match transport w (request_of self method path None None None None) with
  | Raise e =>
      (Raise e,
       log (Ev_request (request_of self method path None None None None)) w)
  | Ok response =>
      if httpx.is_success response then
        (Ok (httpx.content response),
         log (Ev_request (request_of self method path None None None None)) w)
      else
        (Raise (SdkError (select_error (httpx.status_code response)
                                       (error_message response))),
         log Ev_json
           (log (Ev_request
                   (request_of self method path None None None None)) w))
  end.
Proof.
  unfold BatchRouter._request_raw, BatchRouter.Client_request, request_of.
  rewrite run_bind. simpl.
  destruct (transport w _) as [response|e]; [|done].
  rewrite run_bind.
  destruct (httpx.is_success response); simpl; [done|].
  by rewrite handle_error_run.
Qed.

(** Whatever the answer, [_request] hands exactly one request to the
    transport. *)
Lemma request_sends_one `{Platform} self method path params json data files w :
  requests_of
    (events (BatchRouter._request self method path params json data files w).2)
  = (requests_of (events w)
     ++ [request_of self method path params json data files])%list.
Proof.
  rewrite request_run.
  destruct (transport w _) as [response|e]; repeat case_match; simpl;
    rewrite ?requests_of_app; simpl; by rewrite ?app_nil_r.
Qed.

Lemma select_error_table (c : Z) (message : pyval) :
  selected_by_status c (select_error c message).
Proof.
  unfold selected_by_status, select_error.
  repeat split; intros; repeat case_match; simpl; try reflexivity; lia.
Qed.

Lemma select_error_message (c : Z) (message : pyval) :
  exceptions.message (select_error c message) = message.
Proof. unfold select_error. by repeat case_match. Qed.

Lemma error_message_tiers `{Platform} (response : httpx.Response) :
  three_tier_message response (error_message response).
Proof.
  unfold three_tier_message, error_message.
  split; [|split].
  - intros d v -> Hd. by rewrite Hd.
  - intros x -> Htext. destruct (httpx.text response); [done|reflexivity].
  - intros x -> Htext. by rewrite Htext.
Qed.

(** ** Error translation *)

(** C1. For every response, the error-translation procedure raises, and the
    error it raises has the class selected by the status code [c]: 401 gives
    AuthenticationError, 404 NotFoundError, 422 ValidationError, [c >= 500]
    ServerError, and any other status the base BatchRouterError with
    [status_code == c]. Both request operations end that way on every
    response that is not a success: they never return normally. *)
Theorem error_kind_selected_by_status `{Platform} :
  (∀ response w, ∃ e w',
     BatchRouter._handle_error response w = (Raise (SdkError e), w') ∧
     selected_by_status (httpx.status_code response) e) ∧
  (∀ self method path params json data files w response,
     transport w (request_of self method path params json data files)
       = Ok response →
     httpx.is_success response = false →
     ∃ e w',
       BatchRouter._request self method path params json data files w
         = (Raise (SdkError e), w') ∧
       selected_by_status (httpx.status_code response) e) ∧
  (∀ self method path w response,
     transport w (request_of self method path None None None None)
       = Ok response →
     httpx.is_success response = false →
     ∃ e w',
       BatchRouter._request_raw self method path w = (Raise (SdkError e), w') ∧
       selected_by_status (httpx.status_code response) e).
Proof.
  split; [|split].
  - intros response w. rewrite handle_error_run.
    eexists _, _. split; [reflexivity|apply select_error_table].
  - intros self method path params json data files w response Hsend Hfail.
    rewrite request_run, Hsend, Hfail.
    eexists _, _. split; [reflexivity|apply select_error_table].
  - intros self method path w response Hsend Hfail.
    rewrite request_raw_run, Hsend, Hfail.
    eexists _, _. split; [reflexivity|apply select_error_table].
Qed.

(** The test suite's 401 case: the request ends in an AuthenticationError. *)
Lemma error_kind_selected_by_status_witness :
  ∃ e w',
    BatchRouter._request
      (H := Sample.platform
              (Ok (Sample.make_response 401
                     (Some (Sample.detail "Invalid API key")) EmptyString)))
      Sample.client "GET" "/v1/test" None None None None Sample.world0
      = (Raise (SdkError e), w') ∧
    exceptions.cls e = exceptions.AuthenticationError_cls.
Proof.
  destruct (@error_kind_selected_by_status
              (Sample.platform
                 (Ok (Sample.make_response 401
                        (Some (Sample.detail "Invalid API key")) EmptyString))))
    as (_ & Hrequest & _).
  destruct (Hrequest Sample.client "GET" "/v1/test" None None None None
              Sample.world0 _ eq_refl eq_refl)
    as (e & w' & Hrun & Hauth & _).
  exists e, w'. split; [exact Hrun|]. apply Hauth. reflexivity.
Defined.

(** C2, as the code has it. Every error raised by the error-translation
    procedure carries the status code [c] of the response when [c < 500];
    for every [c >= 500] it is a ServerError whose [status_code] is the
    class's fixed 500, whatever [c] was. *)
Theorem raised_status_code `{Platform} (response : httpx.Response) (w : World) :
  ∃ e w',
    BatchRouter._handle_error response w = (Raise (SdkError e), w') ∧
    (httpx.status_code response < 500 →
     exceptions.status_code e = Some (httpx.status_code response)) ∧
    (500 ≤ httpx.status_code response →
     exceptions.cls e = exceptions.ServerError_cls ∧
     exceptions.status_code e = Some 500).
Proof.
  rewrite handle_error_run. eexists _, _. split; [reflexivity|].
  unfold select_error.
  split; intros Hc; repeat case_match; simpl; try (split; reflexivity);
    try reflexivity; try (f_equal; lia); lia.
Qed.

(** The test suite's 429 case keeps its status. *)
Lemma raised_status_code_witness :
  ∃ e w',
    BatchRouter._handle_error
      (H := Sample.platform (Raise (PyExc "httpx.ConnectError")))
      (Sample.make_response 429 (Some (Sample.detail "Rate limited"))
         EmptyString)
      Sample.world0
      = (Raise (SdkError e), w') ∧
    exceptions.status_code e = Some 429.
Proof.
  destruct (@raised_status_code
              (Sample.platform (Raise (PyExc "httpx.ConnectError")))
              (Sample.make_response 429 (Some (Sample.detail "Rate limited"))
                 EmptyString)
              Sample.world0)
    as (e & w' & Hrun & Hlow & _).
  exists e, w'. split; [exact Hrun|]. apply Hlow. simpl. lia.
Defined.

(** C2 as stated fails: a 502 response raises a ServerError whose
    [status_code] is 500, not 502. *)
Lemma server_error_502_carries_500 :
  BatchRouter._handle_error
    (H := Sample.platform (Raise (PyExc "httpx.ConnectError")))
    (Sample.make_response 502 None "Bad Gateway") Sample.world0
  = (Raise (SdkError (exceptions.ServerError (PStr "Bad Gateway"))),
     log Ev_json Sample.world0) ∧
  exceptions.status_code (exceptions.ServerError (PStr "Bad Gateway"))
  ≠ Some (httpx.status_code (Sample.make_response 502 None "Bad Gateway")).
Proof. split; [reflexivity|discriminate]. Qed.

(** C3. The message of the raised error follows the three-tier fallback: a
    body that decodes to a JSON object with a ["detail"] field gives that
    field's value; when decoding fails, a non-empty response text gives that
    text; when decoding fails and the text is empty, the message is
    ["HTTP <status>"]. The same message is the one raised by a request that
    meets a response that is not a success. *)
Theorem error_message_three_tiers `{Platform} :
  (∀ response w, ∃ e w',
     BatchRouter._handle_error response w = (Raise (SdkError e), w') ∧
     three_tier_message response (exceptions.message e)) ∧
  (∀ self method path params json data files w response,
     transport w (request_of self method path params json data files)
       = Ok response →
     httpx.is_success response = false →
     ∃ e w',
       BatchRouter._request self method path params json data files w
         = (Raise (SdkError e), w') ∧
       three_tier_message response (exceptions.message e)).
Proof.
  split.
  - intros response w. rewrite handle_error_run.
    eexists _, _. split; [reflexivity|].
    rewrite select_error_message. apply error_message_tiers.
  - intros self method path params json data files w response Hsend Hfail.
    rewrite request_run, Hsend, Hfail.
    eexists _, _. split; [reflexivity|].
    rewrite select_error_message. apply error_message_tiers.
Qed.

(** The test suite's empty 500 response: the message is ["HTTP 500"]. *)
Lemma error_message_three_tiers_witness :
  ∃ e w',
    BatchRouter._request
      (H := Sample.platform (Ok (Sample.make_response 500 None EmptyString)))
      Sample.client "GET" "/v1/test" None None None None Sample.world0
      = (Raise (SdkError e), w') ∧
    exceptions.message e = PStr "HTTP 500".
Proof.
  destruct (@error_message_three_tiers
              (Sample.platform
                 (Ok (Sample.make_response 500 None EmptyString))))
    as (_ & Hrequest).
  destruct (Hrequest Sample.client "GET" "/v1/test" None None None None
              Sample.world0 _ eq_refl eq_refl)
    as (e & w' & Hrun & _ & _ & Hempty).
  exists e, w'. split; [exact Hrun|].
  apply (Hempty (PyExc "Exception")); reflexivity.
Defined.

(** ** Client construction *)

Lemma init_run (api_key : option string) (base_url : string)
    (timeout : spec_float) (w : World) :
  BatchRouter.__init__ api_key base_url timeout w =
  match resolved_key api_key w with
  | Some (String a k) =>
      if startswith (String a k) "br_" then
        (Ok (BatchRouter.mk (String a k) (rstrip "/" base_url) timeout
               (httpx.mk_Client timeout)),
         log (Ev_Client timeout) w)
      else
        (Raise (SdkError (exceptions.AuthenticationError
                            (PStr key_format_message))), w)
  | _ =>
      (Raise (SdkError (exceptions.AuthenticationError
                          (PStr key_required_message))), w)
  end.
Proof.
  unfold BatchRouter.__init__, BatchRouter.httpx_Client, resolved_key.
  rewrite run_bind.
  destruct (opt_str_truthy api_key) eqn:Hkey; run.
  - destruct api_key as [[|a k]|]; try done. simpl.
    by destruct (startswith (String a k) "br_").
  - destruct (os_environ w !! "BATCHROUTER_API_KEY") as [[|a k]|]; try done.
    simpl. by destruct (startswith (String a k) "br_").
Qed.

(** A constructed client holds a non-empty key with the prefix, which is the
    resolved credential, and the stripped base URL; constructing it made one
    transport client. *)
Lemma init_ok (api_key : option string) (base_url : string)
    (timeout : spec_float) (w : World) (self : BatchRouter.t) (w' : World) :
  BatchRouter.__init__ api_key base_url timeout w = (Ok self, w') →
  resolved_key api_key w = Some (BatchRouter._api_key self) ∧
  BatchRouter._api_key self ≠ EmptyString ∧
  startswith (BatchRouter._api_key self) "br_" = true ∧
  BatchRouter._base_url self = rstrip "/" base_url ∧
  w' = log (Ev_Client timeout) w.
Proof.
  rewrite init_run.
  destruct (resolved_key api_key w) as [[|a k]|]; try done.
  destruct (startswith (String a k) "br_") eqn:Hprefix; [|done].
  intros [= <- <-]. by simpl.
Qed.

Lemma rstrip_cons (chars : string) (c : ascii) (s' : string) :
  rstrip chars (String c s') =
  match rstrip chars s' with
  | EmptyString =>
      if contains chars (String c EmptyString) then EmptyString
      else String c EmptyString
  | String a r => String c (String a r)
  end.
Proof. reflexivity. Qed.

Lemma rstrip_split (chars s : string) :
  ∃ t, s = rstrip chars s +:+ t ∧ all_in chars t = true.
Proof.
  induction s as [|c s' (t & Hs' & Ht)].
  - by exists EmptyString.
  - rewrite rstrip_cons.
    destruct (rstrip chars s') as [|a r] eqn:Hr.
    + change (s' = t) in Hs'. subst t.
      destruct (contains chars (String c EmptyString)) eqn:Hc.
      * exists (String c s'). split; [reflexivity|].
        simpl. by rewrite Hc, Ht.
      * exists s'. by split.
    + exists t. split; [|exact Ht].
      change (String c s' = String c (String a r +:+ t)). by rewrite <- Hs'.
Qed.

Lemma rstrip_end (chars s : string) :
  ends_in chars (rstrip chars s) = false.
Proof.
  unfold ends_in.
  induction s as [|c s' IH]; [done|].
  rewrite rstrip_cons.
  destruct (rstrip chars s') as [|a r] eqn:Hr.
  - destruct (contains chars (String c EmptyString)) eqn:Hc; simpl;
      [done|by rewrite Hc].
  - exact IH.
Qed.

(** C4, as the code has it. Constructing the client with no credential
    argument and no environment variable raises AuthenticationError with a
    message mentioning "API key is required"; constructing it with a
    non-empty credential that does not start with ["br_"] raises
    AuthenticationError with a message mentioning the prefix. In both cases
    the world is left as it was: no transport client has been made. *)
Theorem credential_validation (base_url : string) (timeout : spec_float)
    (w : World) :
  (os_environ w !! "BATCHROUTER_API_KEY" = None →
   ∃ msg,
     BatchRouter.__init__ None base_url timeout w
       = (Raise (SdkError (exceptions.AuthenticationError (PStr msg))), w) ∧
     contains msg "API key is required" = true) ∧
  (∀ k : string,
     k ≠ EmptyString →
     startswith k "br_" = false →
     ∃ msg,
       BatchRouter.__init__ (Some k) base_url timeout w
         = (Raise (SdkError (exceptions.AuthenticationError (PStr msg))), w) ∧
       contains msg "'br_'" = true).
Proof.
  split.
  - intros Henv. exists key_required_message.
    rewrite init_run. unfold resolved_key. simpl. rewrite Henv.
    split; reflexivity.
  - intros k Hk Hprefix. exists key_format_message.
    rewrite init_run. unfold resolved_key.
    destruct k as [|a k]; [done|]. simpl opt_str_truthy. cbv iota.
    rewrite Hprefix. split; reflexivity.
Qed.

(** The test suite's malformed key. *)
Lemma credential_validation_witness :
  ∃ msg,
    BatchRouter.__init__ (Some "invalid_key_without_prefix")
      BatchRouter.DEFAULT_BASE_URL BatchRouter.DEFAULT_TIMEOUT Sample.world0
      = (Raise (SdkError (exceptions.AuthenticationError (PStr msg))),
         Sample.world0) ∧
    contains msg "'br_'" = true.
Proof.
  destruct (credential_validation BatchRouter.DEFAULT_BASE_URL
              BatchRouter.DEFAULT_TIMEOUT Sample.world0) as (_ & Hformat).
  apply (Hformat "invalid_key_without_prefix"); [discriminate|reflexivity].
Defined.

(** C4 as stated fails: the empty string does not start with ["br_"], yet
    with a well-formed key in the environment the construction succeeds. *)
Lemma empty_credential_constructs_from_environment :
  startswith EmptyString "br_" = false ∧
  BatchRouter.__init__ (Some EmptyString) BatchRouter.DEFAULT_BASE_URL
    BatchRouter.DEFAULT_TIMEOUT (Sample.world_env "br_env_key_456")
  = (Ok (BatchRouter.mk "br_env_key_456" "https://api.batchrouter.ai"
           BatchRouter.DEFAULT_TIMEOUT
           (httpx.mk_Client BatchRouter.DEFAULT_TIMEOUT)),
     log (Ev_Client BatchRouter.DEFAULT_TIMEOUT)
       (Sample.world_env "br_env_key_456")).
Proof. split; reflexivity. Qed.

(** C9. An empty-string credential is handled as an absent one: the
    constructor does what it does without the argument, that is, it falls
    back to the environment variable. A non-empty key found there is the one
    checked for the prefix and, when it has it, the one stored; when the
    variable is absent or empty the constructor raises AuthenticationError.
    So a client it does construct holds the environment's non-empty key,
    never the empty string. *)
Theorem empty_credential_is_absent (base_url : string) (timeout : spec_float)
    (w : World) :
  BatchRouter.__init__ (Some EmptyString) base_url timeout w
    = BatchRouter.__init__ None base_url timeout w ∧
  (∀ k,
     os_environ w !! "BATCHROUTER_API_KEY" = Some k →
     k ≠ EmptyString →
     (startswith k "br_" = true →
      BatchRouter.__init__ (Some EmptyString) base_url timeout w
        = (Ok (BatchRouter.mk k (rstrip "/" base_url) timeout
                 (httpx.mk_Client timeout)),
           log (Ev_Client timeout) w)) ∧
     (startswith k "br_" = false →
      BatchRouter.__init__ (Some EmptyString) base_url timeout w
        = (Raise (SdkError (exceptions.AuthenticationError
                              (PStr key_format_message))), w))) ∧
  (os_environ w !! "BATCHROUTER_API_KEY" = None ∨
   os_environ w !! "BATCHROUTER_API_KEY" = Some EmptyString →
   BatchRouter.__init__ (Some EmptyString) base_url timeout w
     = (Raise (SdkError (exceptions.AuthenticationError
                           (PStr key_required_message))), w)) ∧
  (∀ self w',
     BatchRouter.__init__ (Some EmptyString) base_url timeout w
       = (Ok self, w') →
     BatchRouter._api_key self ≠ EmptyString ∧
     os_environ w !! "BATCHROUTER_API_KEY" = Some (BatchRouter._api_key self)).
Proof.
  split; [by rewrite !init_run|]. split; [|split].
  - intros k Henv Hk. rewrite init_run. unfold resolved_key. simpl.
    rewrite Henv. destruct k as [|a k]; [done|].
    split; intros ->; reflexivity.
  - intros Henv. rewrite init_run. unfold resolved_key. simpl.
    by destruct Henv as [-> | ->].
  - intros self w' Hinit.
    destruct (init_ok _ _ _ _ _ _ Hinit) as (Hkey & Hne & _).
    by split.
Qed.

(** An empty credential with a key in the environment: the constructor
    returns a client that holds the environment's key. *)
Lemma empty_credential_is_absent_witness :
  BatchRouter.__init__ (Some EmptyString) BatchRouter.DEFAULT_BASE_URL
    BatchRouter.DEFAULT_TIMEOUT (Sample.world_env "br_env_key_456")
  = (Ok (BatchRouter.mk "br_env_key_456"
           (rstrip "/" BatchRouter.DEFAULT_BASE_URL)
           BatchRouter.DEFAULT_TIMEOUT
           (httpx.mk_Client BatchRouter.DEFAULT_TIMEOUT)),
     log (Ev_Client BatchRouter.DEFAULT_TIMEOUT)
       (Sample.world_env "br_env_key_456")).
Proof.
  destruct (empty_credential_is_absent BatchRouter.DEFAULT_BASE_URL
              BatchRouter.DEFAULT_TIMEOUT (Sample.world_env "br_env_key_456"))
    as (_ & Hfallback & _).
  destruct (Hfallback "br_env_key_456" eq_refl) as (Hgood & _);
    [discriminate|].
  apply Hgood. reflexivity.
Defined.

(** ** Request construction *)

Lemma dict_truthy_nonempty {A} (d : gmap string A) :
  dict_truthy d = true ↔ d ≠ ∅.
Proof.
  unfold dict_truthy. rewrite negb_true_iff, Nat.eqb_neq.
  by rewrite map_size_empty_iff.
Qed.

Lemma get_headers_lookup (self : BatchRouter.t) :
  BatchRouter._get_headers self !! "Authorization"
    = Some ("Bearer " +:+ BatchRouter._api_key self) ∧
  BatchRouter._get_headers self !! "Content-Type" = Some "application/json" ∧
  BatchRouter._get_headers self !! "User-Agent"
    = Some "batchrouter-python/0.1.0".
Proof. unfold BatchRouter._get_headers. by simplify_map_eq. Qed.

Lemma request_of_headers self method path params json data files :
  httpx.headers (request_of self method path params json data files)
    !! "Authorization" = Some ("Bearer " +:+ BatchRouter._api_key self) ∧
  httpx.headers (request_of self method path params json data files)
    !! "User-Agent" = Some "batchrouter-python/0.1.0" ∧
  httpx.headers (request_of self method path params json data files)
    !! "Content-Type"
    = if opt_dict_truthy files then None else Some "application/json".
Proof.
  destruct (get_headers_lookup self) as (Hauth & Hct & Hua).
  unfold request_of. simpl.
  destruct (opt_dict_truthy files).
  - by rewrite lookup_delete_eq, !lookup_delete_ne.
  - done.
Qed.

Lemma request_raw_sends_one `{Platform} self method path w :
  requests_of (events (BatchRouter._request_raw self method path w).2)
  = (requests_of (events w)
     ++ [request_of self method path None None None None])%list.
Proof.
  rewrite request_raw_run.
  destruct (transport w _) as [response|e]; repeat case_match; simpl;
    rewrite ?requests_of_app; simpl; by rewrite ?app_nil_r.
Qed.

(** C7. Every request the mediator builds, by [_request] or by
    [_request_raw], has the header [Authorization: Bearer <credential>], the
    fixed [User-Agent] and [Content-Type: application/json], except that
    with file parts present (a non-empty [files]) the [Content-Type] header
    is absent and the two others stay. Its URL is the client's base URL,
    which is the constructor's argument stripped of its trailing slashes,
    followed by ["/api"] and the path. *)
Theorem request_headers_and_url `{Platform} (self : BatchRouter.t)
    (method path : string) (params json data : option (gmap string pyval))
    (files : option (gmap string httpx.FilePart)) (w : World) :
  (∃ req,
     requests_of
       (events
          (BatchRouter._request self method path params json data files w).2)
       = (requests_of (events w) ++ [req])%list ∧
     httpx.url req = BatchRouter._base_url self +:+ "/api" +:+ path ∧
     httpx.headers req !! "Authorization"
       = Some ("Bearer " +:+ BatchRouter._api_key self) ∧
     httpx.headers req !! "User-Agent" = Some "batchrouter-python/0.1.0" ∧
     (files = None ∨ files = Some ∅ →
      httpx.headers req !! "Content-Type" = Some "application/json") ∧
     (∀ parts, files = Some parts → parts ≠ ∅ →
      httpx.headers req !! "Content-Type" = None)) ∧
  (∃ req,
     requests_of (events (BatchRouter._request_raw self method path w).2)
       = (requests_of (events w) ++ [req])%list ∧
     httpx.url req = BatchRouter._base_url self +:+ "/api" +:+ path ∧
     httpx.headers req !! "Authorization"
       = Some ("Bearer " +:+ BatchRouter._api_key self) ∧
     httpx.headers req !! "User-Agent" = Some "batchrouter-python/0.1.0" ∧
     httpx.headers req !! "Content-Type" = Some "application/json") ∧
  (∀ api_key base_url timeout w0 w1,
     BatchRouter.__init__ api_key base_url timeout w0 = (Ok self, w1) →
     resolved_key api_key w0 = Some (BatchRouter._api_key self) ∧
     BatchRouter._base_url self = rstrip "/" base_url ∧
     ends_in "/" (BatchRouter._base_url self) = false ∧
     ∃ slashes, base_url = BatchRouter._base_url self +:+ slashes ∧
                all_in "/" slashes = true).
Proof.
  split; [|split].
  - exists (request_of self method path params json data files).
    destruct (request_of_headers self method path params json data files)
      as (Hauth & Hua & Hct).
    split; [apply request_sends_one|].
    split; [reflexivity|]. split; [exact Hauth|]. split; [exact Hua|].
    split.
    + intros [-> | ->]; exact Hct.
    + intros parts -> Hparts. rewrite Hct. simpl.
      by apply dict_truthy_nonempty in Hparts as ->.
  - exists (request_of self method path None None None None).
    destruct (request_of_headers self method path None None None None)
      as (Hauth & Hua & Hct).
    split; [apply request_raw_sends_one|]. by repeat split.
  - intros api_key base_url timeout w0 w1 Hinit.
    destruct (init_ok _ _ _ _ _ _ Hinit) as (Hkey & _ & _ & Hurl & _).
    split; [exact Hkey|]. split; [exact Hurl|]. rewrite Hurl.
    split; [apply rstrip_end|apply rstrip_split].
Qed.

(** A multipart upload through the test suite's client: one request, to the
    prefixed path, without a [Content-Type] header. *)
Lemma request_headers_and_url_witness :
  ∃ req,
    requests_of
      (events
         (BatchRouter._request
            (H := Sample.platform (Raise (PyExc "httpx.ConnectError")))
            Sample.client "POST" "/v1/datasets" None None
            (Some {[ "name" := PStr "my-dataset" ]})
            (Some {[ "file" := httpx.mk_FilePart "my-dataset" []
                                 "application/jsonl" ]})
            Sample.world0).2)
      = [req] ∧
    httpx.url req = "https://api.batchrouter.ai/api/v1/datasets" ∧
    httpx.headers req !! "Content-Type" = None.
Proof.
  destruct (@request_headers_and_url
              (Sample.platform (Raise (PyExc "httpx.ConnectError")))
              Sample.client "POST" "/v1/datasets" None None
              (Some {[ "name" := PStr "my-dataset" ]})
              (Some {[ "file" := httpx.mk_FilePart "my-dataset" []
                                   "application/jsonl" ]})
              Sample.world0)
    as ((req & Hsent & Hurl & _ & _ & _ & Hfiles) & _).
  exists req. split; [exact Hsent|]. split; [exact Hurl|].
  apply (Hfiles _ eq_refl). apply map_non_empty_singleton.
Defined.

(** C8. On a success response with status 204 the JSON-returning request
    operation returns [None] and has not called [response.json()]; on every
    other success response it calls it once and returns what it gives. *)
Theorem no_content_returns_none `{Platform} (self : BatchRouter.t)
    (method path : string) (params json data : option (gmap string pyval))
    (files : option (gmap string httpx.FilePart)) (w : World)
    (response : httpx.Response) :
  transport w (request_of self method path params json data files)
    = Ok response →
  httpx.is_success response = true →
  (httpx.status_code response = 204 →
   ∃ w',
     BatchRouter._request self method path params json data files w
       = (Ok PNone, w') ∧
     decodes_of (events w') = decodes_of (events w)) ∧
  (httpx.status_code response ≠ 204 →
   ∃ w',
     BatchRouter._request self method path params json data files w
       = (httpx.json_result response, w') ∧
     decodes_of (events w') = S (decodes_of (events w))).
Proof.
  intros Hsend Hok. rewrite request_run, Hsend, Hok. split.
  - intros ->. eexists. split; [reflexivity|].
    simpl. rewrite decodes_of_app. simpl. lia.
  - intros Hcode. apply Z.eqb_neq in Hcode as ->.
    eexists. split; [reflexivity|].
    simpl. rewrite !decodes_of_app. simpl. lia.
Qed.

(** A 204 answer to a delete whose body would not decode: [None] all the
    same, and no decode attempt. *)
Lemma no_content_returns_none_witness :
  ∃ w',
    BatchRouter._request
      (H := Sample.platform (Ok (Sample.make_response 204 None EmptyString)))
      Sample.client "DELETE" "/v1/datasets/ds_1" None None None None
      Sample.world0
      = (Ok PNone, w') ∧
    decodes_of (events w') = decodes_of (events Sample.world0).
Proof.
  destruct (@no_content_returns_none
              (Sample.platform
                 (Ok (Sample.make_response 204 None EmptyString)))
              Sample.client "DELETE" "/v1/datasets/ds_1" None None None None
              Sample.world0 _ eq_refl eq_refl)
    as (Hnone & _).
  apply Hnone. reflexivity.
Defined.

(** ** Facades *)

Lemma stateless_ret {A} (a : A) : stateless (mret a : M A).
Proof. by intros w. Qed.

Lemma stateless_raise {A} (e : exn) : stateless (raise e : M A).
Proof. by intros w. Qed.

Lemma stateless_of_result {A} (r : Result A) : stateless (of_result r).
Proof. by intros w. Qed.

Lemma stateless_bind {A B} (m : M A) (k : A → M B) :
  stateless m → (∀ a, stateless (k a)) → stateless (m ≫= k).
Proof.
  intros Hm Hk w. rewrite run_bind. specialize (Hm w).
  destruct (m w) as [[a|e] w1]; simpl in *; subst; [apply Hk|done].
Qed.

Lemma stateless_construct {A} (validate : gmap string pyval → Result A) v :
  stateless (construct validate v).
Proof.
  destruct v; simpl; auto using stateless_raise, stateless_of_result.
Qed.

Lemma stateless_py_get v key dflt : stateless (py_get v key dflt).
Proof. destruct v; simpl; auto using stateless_raise, stateless_ret. Qed.

Lemma stateless_py_iter v : stateless (py_iter v).
Proof. destruct v; simpl; auto using stateless_raise, stateless_ret. Qed.

Lemma stateless_mapM {A B} (f : A → M B) (xs : list A) :
  (∀ x, stateless (f x)) → stateless (mapM f xs).
Proof.
  intros Hf. induction xs as [|x xs IH]; simpl; [apply stateless_ret|].
  apply stateless_bind; [apply Hf|]. intros y.
  apply stateless_bind; [apply IH|]. intros ys. apply stateless_ret.
Qed.

(** Binding a stateless continuation keeps the world of the first step. *)
Lemma run_bind_stateless {A B} (m : M A) (k : A → M B) w :
  (∀ a, stateless (k a)) → ((m ≫= k) w).2 = (m w).2.
Proof.
  intros Hk. rewrite run_bind.
  destruct (m w) as [[a|e] w1]; simpl; [apply Hk|done].
Qed.

(** The loop of [get_by_name] stops at the first dataset with the name. *)
Lemma scan_first (name : string) (datasets : list types.Dataset) :
  (∃ pre dataset post,
     Datasets.scan name datasets = Some dataset ∧
     datasets = (pre ++ dataset :: post)%list ∧
     types.Dataset_name dataset = name ∧
     Forall (λ x, types.Dataset_name x ≠ name) pre) ∨
  (Datasets.scan name datasets = None ∧
   Forall (λ x, types.Dataset_name x ≠ name) datasets).
Proof.
  induction datasets as [|d rest IH]; simpl.
  - right. by split.
  - destruct (String.eqb_spec (types.Dataset_name d) name) as [Heq|Hne].
    + left. exists [], d, rest. by repeat split.
    + destruct IH as [(pre & x & post & Hscan & -> & Hname & Hpre)
                     |(Hscan & Hall)].
      * left. exists (d :: pre), x, post.
        repeat split; [exact Hscan|exact Hname|by constructor].
      * right. split; [exact Hscan|by constructor].
Qed.

Lemma create_payload_lookup (dataset_name model : string)
    (provider description : option string) :
  Batches.create_payload dataset_name model provider description
    !! "dataset_name" = Some (PStr dataset_name) ∧
  Batches.create_payload dataset_name model provider description
    !! "model" = Some (PStr model) ∧
  Batches.create_payload dataset_name model provider description
    !! "provider"
    = (if opt_str_truthy provider then PStr <$> provider else None) ∧
  Batches.create_payload dataset_name model provider description
    !! "description"
    = (if opt_str_truthy description then PStr <$> description else None).
Proof.
  unfold Batches.create_payload.
  destruct provider as [[|a p]|], description as [[|b q]|]; simpl;
    by simplify_map_eq.
Qed.

(** C5. [Batches.create] sends one request whose JSON body is the payload
    it builds. With only [dataset_name = "ds"] that payload is exactly
    [{"dataset_name": "ds", "model": "auto"}], with no [provider] and no
    [description] key. In every call [dataset_name] and [model] are present,
    and [provider] (resp. [description]) is a key of the body if and only if
    the argument is a non-empty string, whose value it then holds. *)
Theorem create_body `{Platform} (self : BatchRouter.t)
    (dataset_name model : string) (provider description : option string)
    (w : World) :
  (∃ req,
     requests_of
       (events
          (Batches.create self dataset_name model provider description w).2)
       = (requests_of (events w) ++ [req])%list ∧
     httpx.method req = "POST" ∧
     httpx.json req
       = Some (Batches.create_payload dataset_name model provider
                 description)) ∧
  Batches.create_payload "ds" Batches.model_default None None
    = {[ "dataset_name" := PStr "ds"; "model" := PStr "auto" ]} ∧
  Batches.create_payload "ds" Batches.model_default None None !! "provider"
    = None ∧
  Batches.create_payload "ds" Batches.model_default None None !! "description"
    = None ∧
  Batches.create_payload dataset_name model provider description
    !! "dataset_name" = Some (PStr dataset_name) ∧
  Batches.create_payload dataset_name model provider description
    !! "model" = Some (PStr model) ∧
  (∀ v,
     Batches.create_payload dataset_name model provider description
       !! "provider" = Some v ↔
     ∃ p, provider = Some p ∧ p ≠ EmptyString ∧ v = PStr p) ∧
  (∀ v,
     Batches.create_payload dataset_name model provider description
       !! "description" = Some v ↔
     ∃ d, description = Some d ∧ d ≠ EmptyString ∧ v = PStr d).
Proof.
  destruct (create_payload_lookup dataset_name model provider description)
    as (Hname & Hmodel & Hprovider & Hdescription).
  split; [|split; [|split; [|split; [|split; [|split; [|split]]]]]].
  - eexists. split; [|split].
    + unfold Batches.create.
      rewrite run_bind_stateless by (intros; apply stateless_construct).
      apply request_sends_one.
    + reflexivity.
    + reflexivity.
  - reflexivity.
  - reflexivity.
  - reflexivity.
  - exact Hname.
  - exact Hmodel.
  - intros v. rewrite Hprovider.
    destruct provider as [[|a p]|]; simpl; split;
      [done|intros (p' & [= <-] & Hne & _); done
      |intros [= <-]; by eexists|intros (p' & [= <-] & _ & ->); done
      |done|intros (p' & [=] & _)].
  - intros v. rewrite Hdescription.
    destruct description as [[|a d]|]; simpl; split;
      [done|intros (d' & [= <-] & Hne & _); done
      |intros [= <-]; by eexists|intros (d' & [= <-] & _ & ->); done
      |done|intros (d' & [=] & _)].
Qed.

(** The test suite's call with an empty description: no [description] key
    reaches the body. *)
Lemma create_body_witness :
  Batches.create_payload "ds" "auto" None (Some EmptyString) !! "description"
    = None.
Proof.
  destruct (@create_body (Sample.platform (Raise (PyExc "httpx.ConnectError")))
              Sample.client "ds" "auto" None (Some EmptyString) Sample.world0)
    as (_ & _ & _ & _ & _ & _ & _ & Hdescription).
  destruct (Batches.create_payload "ds" "auto" None (Some EmptyString)
              !! "description") as [v|] eqn:Hlookup; [|reflexivity].
  destruct (proj1 (Hdescription v) eq_refl) as (d & Hd & Hne & _).
  injection Hd as <-. destruct (Hne eq_refl).
Defined.

Lemma list_sends_one `{Platform} (self : BatchRouter.t) (page page_size : Z)
    (w : World) :
  requests_of (events (Datasets.list_ self page page_size w).2)
  = (requests_of (events w)
     ++ [request_of self "GET" "/v1/datasets"
           (Some (<["page" := PInt page]>
                  (<["page_size" := PInt page_size]> ∅)))
           None None None])%list.
Proof.
  unfold Datasets.list_.
  rewrite run_bind_stateless; [apply request_sends_one|].
  intros response.
  apply stateless_bind; [apply stateless_py_get|]. intros data.
  apply stateless_bind; [apply stateless_py_iter|]. intros items.
  apply stateless_mapM. intros x. apply stateless_construct.
Qed.

(** C6. [Datasets.get_by_name] sends exactly one request: a GET of the
    dataset list with [page = 1] and [page_size = 100]. When that listing
    gives [datasets], it returns the result of scanning them in order:
    either the first dataset whose name equals the argument (every dataset
    before it has another name), or [None], returned normally, when no
    dataset has the name. *)
Theorem get_by_name_first_match `{Platform} (self : BatchRouter.t)
    (name : string) (w : World) :
  (∃ req,
     requests_of (events (Datasets.get_by_name self name w).2)
       = (requests_of (events w) ++ [req])%list ∧
     httpx.method req = "GET" ∧
     httpx.url req = BatchRouter._base_url self +:+ "/api/v1/datasets" ∧
     httpx.params req
       = Some {[ "page" := PInt 1; "page_size" := PInt 100 ]}) ∧
  (∀ datasets w',
     Datasets.list_ self 1 100 w = (Ok datasets, w') →
     Datasets.get_by_name self name w
       = (Ok (Datasets.scan name datasets), w') ∧
     ((∃ pre dataset post,
         Datasets.scan name datasets = Some dataset ∧
         datasets = (pre ++ dataset :: post)%list ∧
         types.Dataset_name dataset = name ∧
         Forall (λ x, types.Dataset_name x ≠ name) pre) ∨
      (Datasets.scan name datasets = None ∧
       Forall (λ x, types.Dataset_name x ≠ name) datasets))).
Proof.
  split.
  - eexists. split; [|split; [|split]].
    + unfold Datasets.get_by_name.
      rewrite run_bind_stateless by (intros; apply stateless_ret).
      apply list_sends_one.
    + reflexivity.
    + reflexivity.
    + reflexivity.
  - intros datasets w' Hlist. split.
    + unfold Datasets.get_by_name, Datasets.page_default.
      by rewrite (run_bind_ok _ _ _ _ _ Hlist).
    + apply scan_first.
Qed.

(** Two datasets named "beta" behind one named "alpha": the first "beta" is
    returned. *)
Lemma get_by_name_first_match_witness :
  Datasets.get_by_name
    (H := Sample.platform
            (Ok (Sample.ok_response
                   (PDict {[ "data" :=
                      PList [Sample.dataset_json "ds_1" "alpha";
                             Sample.dataset_json "ds_2" "beta";
                             Sample.dataset_json "ds_3" "beta"] ]}))))
    Sample.client "beta" Sample.world0
  = (Ok (Some (Sample.dataset "ds_2" "beta")),
     log Ev_json
       (log (Ev_request
               (request_of Sample.client "GET" "/v1/datasets"
                  (Some {[ "page" := PInt 1; "page_size" := PInt 100 ]})
                  None None None))
          Sample.world0)).
Proof.
  destruct (@get_by_name_first_match
              (Sample.platform
                 (Ok (Sample.ok_response
                        (PDict {[ "data" :=
                           PList [Sample.dataset_json "ds_1" "alpha";
                                  Sample.dataset_json "ds_2" "beta";
                                  Sample.dataset_json "ds_3" "beta"] ]}))))
              Sample.client "beta" Sample.world0)
    as (_ & Hscan).
  exact (proj1 (Hscan [Sample.dataset "ds_1" "alpha";
                       Sample.dataset "ds_2" "beta";
                       Sample.dataset "ds_3" "beta"] _ eq_refl)).
Defined.

(** C10. [Models.get] returns [None] whenever the value returned by the
    request is falsy, which covers the JSON [null] body and the empty JSON
    object alike; when it returns a Model, the value was truthy (a
    non-empty object that validated as that Model). *)
Theorem models_get_none_when_falsy `{Platform} (self : BatchRouter.t)
    (name : string) (w : World) :
  (∀ v w',
     BatchRouter._request self "GET" ("/v1/routing/models/" +:+ name)
       None None None None w = (Ok v, w') →
     truthy v = false →
     Models.get self name w = (Ok None, w')) ∧
  (∀ model w',
     Models.get self name w = (Ok (Some model), w') →
     ∃ v d,
       BatchRouter._request self "GET" ("/v1/routing/models/" +:+ name)
         None None None None w = (Ok v, w') ∧
       truthy v = true ∧
       v = PDict d ∧
       validate_Model d = Ok model) ∧
  truthy PNone = false ∧
  truthy (PDict ∅) = false.
Proof.
  split; [|split; [|split; reflexivity]].
  - intros v w' Hrequest Hfalsy. unfold Models.get.
    by rewrite (run_bind_ok _ _ _ _ _ Hrequest), Hfalsy.
  - intros model w' Hget. unfold Models.get in Hget.
    apply run_bind_inv_ok in Hget as (v & w1 & Hrequest & Hrest).
    destruct (truthy v) eqn:Htruthy; [|done].
    apply run_bind_inv_ok in Hrest as (m & w2 & Hconstruct & Hret).
    injection Hret as -> ->.
    destruct v; simpl in Hconstruct; try done.
    unfold of_result in Hconstruct. injection Hconstruct as Hvalidate ->.
    by exists (PDict d), d.
Qed.

(** A success response whose body is the empty object: [None]. *)
Lemma models_get_none_when_falsy_witness :
  ∃ w',
    Models.get (H := Sample.platform (Ok (Sample.ok_response (PDict ∅))))
      Sample.client "gpt-4o" Sample.world0
    = (Ok None, w').
Proof.
  destruct (@models_get_none_when_falsy
              (Sample.platform (Ok (Sample.ok_response (PDict ∅))))
              Sample.client "gpt-4o" Sample.world0)
    as (Hfalsy & _).
  eexists. apply (Hfalsy (PDict ∅) _ eq_refl eq_refl).
Defined.

(** * Further properties *)

(** ** The mediator *)

(** X1. On every success response, whatever its status (204 included) and
    however short its body, [_request_raw] returns the response's content
    bytes as they are, after exactly one request and without calling
    [response.json()]. *)
Theorem request_raw_returns_content `{Platform} (self : BatchRouter.t)
    (method path : string) (w : World) (response : httpx.Response) :
  transport w (request_of self method path None None None None)
    = Ok response →
  httpx.is_success response = true →
  ∃ w',
    BatchRouter._request_raw self method path w
      = (Ok (httpx.content response), w') ∧
    events w'
      = (events w
         ++ [Ev_request (request_of self method path None None None None)])%list ∧
    decodes_of (events w') = decodes_of (events w).
Proof.
  intros Hsend Hok. rewrite request_raw_run, Hsend, Hok.
  eexists. split; [reflexivity|]. split; [reflexivity|].
  simpl. rewrite decodes_of_app. simpl. lia.
Qed.

(** A 204 answer with no content: the empty byte string, returned normally. *)
Lemma request_raw_returns_content_witness :
  ∃ w',
    BatchRouter._request_raw
      (H := Sample.platform (Ok (Sample.make_response 204 None EmptyString)))
      Sample.client "GET" "/v1/batches/b1/errors" Sample.world0
    = (Ok [], w').
Proof.
  destruct (@request_raw_returns_content
              (Sample.platform
                 (Ok (Sample.make_response 204 None EmptyString)))
              Sample.client "GET" "/v1/batches/b1/errors" Sample.world0
              _ eq_refl eq_refl)
    as (w' & Hrun & _).
  exists w'. exact Hrun.
Defined.

(** X2. An exception raised by the transport itself leaves both request
    operations unchanged: the same exception, after the one request and
    nothing else (no second attempt, no decode, no translation into an SDK
    error). *)
Theorem transport_failure_propagates `{Platform} (self : BatchRouter.t)
    (method path : string) (params json data : option (gmap string pyval))
    (files : option (gmap string httpx.FilePart)) (w : World) (e : exn) :
  (transport w (request_of self method path params json data files)
     = Raise e →
   BatchRouter._request self method path params json data files w
     = (Raise e,
        log (Ev_request (request_of self method path params json data files))
          w)) ∧
  (transport w (request_of self method path None None None None) = Raise e →
   BatchRouter._request_raw self method path w
     = (Raise e,
        log (Ev_request (request_of self method path None None None None))
          w)).
Proof.
  split; intros Hsend.
  - by rewrite request_run, Hsend.
  - by rewrite request_raw_run, Hsend.
Qed.

(** A refused connection during a listing. *)
Lemma transport_failure_propagates_witness :
  (BatchRouter._request
     (H := Sample.platform (Raise (PyExc "httpx.ConnectError")))
     Sample.client "GET" "/v1/datasets" None None None None Sample.world0).1
  = Raise (PyExc "httpx.ConnectError").
Proof.
  destruct (@transport_failure_propagates
              (Sample.platform (Raise (PyExc "httpx.ConnectError")))
              Sample.client "GET" "/v1/datasets" None None None None
              Sample.world0 (PyExc "httpx.ConnectError"))
    as (Hrequest & _).
  by rewrite (Hrequest eq_refl).
Defined.



(** ** Construction *)

Lemma rstrip_unchanged (chars s : string) :
  ends_in chars s = false → rstrip chars s = s.
Proof.
  unfold ends_in. induction s as [|c s' IH]; [done|].
  rewrite rstrip_cons. destruct s' as [|a r].
  - simpl. by intros ->.
  - intros Hend. by rewrite (IH Hend).
Qed.

(** X4. A non-empty [api_key] argument wins over the environment: the
    outcome of the construction is the same whatever the process environment
    holds. *)
Theorem explicit_key_ignores_environment (k base_url : string)
    (timeout : spec_float) (env env' : gmap string string)
    (evs : list Event) :
  k ≠ EmptyString →
  (BatchRouter.__init__ (Some k) base_url timeout (mk_World env evs)).1
    = (BatchRouter.__init__ (Some k) base_url timeout (mk_World env' evs)).1 ∧
  events (BatchRouter.__init__ (Some k) base_url timeout (mk_World env evs)).2
    = events
        (BatchRouter.__init__ (Some k) base_url timeout (mk_World env' evs)).2.
Proof.
  intros Hk. rewrite !init_run. unfold resolved_key.
  destruct k as [|a k]; [done|]. simpl opt_str_truthy. cbv iota.
  by destruct (startswith (String a k) "br_").
Qed.

(** The explicit key is stored although the environment names another. *)
Lemma explicit_key_ignores_environment_witness :
  (BatchRouter.__init__ (Some "br_test_key_123") BatchRouter.DEFAULT_BASE_URL
     BatchRouter.DEFAULT_TIMEOUT (Sample.world_env "br_env_key_456")).1
  = Ok Sample.client.
Proof.
  destruct (explicit_key_ignores_environment "br_test_key_123"
              BatchRouter.DEFAULT_BASE_URL BatchRouter.DEFAULT_TIMEOUT
              {[ "BATCHROUTER_API_KEY" := "br_env_key_456" ]} ∅ [])
    as (Hsame & _); [discriminate|].
  exact Hsame.
Defined.

(** X5. A key taken from the environment goes through the same prefix check
    as an explicit one: without an [api_key] argument, a non-empty
    [BATCHROUTER_API_KEY] that lacks the prefix raises AuthenticationError
    and makes no transport client, and one that has it becomes the stored
    key. *)
Theorem environment_key_is_checked (base_url : string) (timeout : spec_float)
    (w : World) (k : string) :
  os_environ w !! "BATCHROUTER_API_KEY" = Some k →
  k ≠ EmptyString →
  (startswith k "br_" = false →
   BatchRouter.__init__ None base_url timeout w
     = (Raise (SdkError (exceptions.AuthenticationError
                           (PStr key_format_message))), w)) ∧
  (startswith k "br_" = true →
   ∃ self,
     BatchRouter.__init__ None base_url timeout w
       = (Ok self, log (Ev_Client timeout) w) ∧
     BatchRouter._api_key self = k).
Proof.
  intros Henv Hk. rewrite init_run. unfold resolved_key. simpl. rewrite Henv.
  destruct k as [|a k]; [done|].
  split; intros ->; [reflexivity|]. by eexists.
Qed.

(** The test suite's environment key. *)
Lemma environment_key_is_checked_witness :
  ∃ self,
    BatchRouter.__init__ None BatchRouter.DEFAULT_BASE_URL
      BatchRouter.DEFAULT_TIMEOUT (Sample.world_env "br_env_key_456")
      = (Ok self,
         log (Ev_Client BatchRouter.DEFAULT_TIMEOUT)
           (Sample.world_env "br_env_key_456")) ∧
    BatchRouter._api_key self = "br_env_key_456".
Proof.
  destruct (environment_key_is_checked BatchRouter.DEFAULT_BASE_URL
              BatchRouter.DEFAULT_TIMEOUT (Sample.world_env "br_env_key_456")
              "br_env_key_456" eq_refl)
    as (_ & Hgood); [discriminate|].
  apply Hgood. reflexivity.
Defined.

(** X6. The construction has two outcomes only. Either it returns a client
    and has made exactly one transport client, with the requested timeout,
    which the client also stores; or it raises AuthenticationError and
    leaves the world as it was. It returns a client exactly when the
    resolved key starts with ["br_"]. *)
Theorem init_outcome (api_key : option string) (base_url : string)
    (timeout : spec_float) (w : World) :
  ((∃ self,
      BatchRouter.__init__ api_key base_url timeout w
        = (Ok self, log (Ev_Client timeout) w) ∧
      BatchRouter._timeout self = timeout ∧
      httpx.timeout (BatchRouter._client self) = timeout) ∨
   (∃ msg,
      BatchRouter.__init__ api_key base_url timeout w
        = (Raise (SdkError (exceptions.AuthenticationError (PStr msg))), w))) ∧
  ((∃ self w', BatchRouter.__init__ api_key base_url timeout w = (Ok self, w'))
   ↔ ∃ k, resolved_key api_key w = Some k ∧ startswith k "br_" = true).
Proof.
  rewrite init_run.
  destruct (resolved_key api_key w) as [[|a k]|] eqn:Hkey.
  - split; [right; by eexists|].
    split; [by intros (? & ? & ?)|]. by intros (k & [= <-] & ?).
  - destruct (startswith (String a k) "br_") eqn:Hprefix.
    + split; [left; by eexists|]. split; [|by eexists _, _].
      intros _. by exists (String a k).
    + split; [right; by eexists|].
      split; [by intros (? & ? & ?)|]. intros (k' & [= <-] & Hk').
      by rewrite Hprefix in Hk'.
  - split; [right; by eexists|].
    split; [by intros (? & ? & ?)|]. by intros (k & [=] & ?).
Qed.

(** X7. A base URL that does not end in a slash is stored as given, and
    stripping is idempotent: a stored base URL is its own stripped form. *)
Theorem base_url_kept_without_trailing_slash (api_key : option string)
    (base_url : string) (timeout : spec_float) (w : World)
    (self : BatchRouter.t) (w' : World) :
  BatchRouter.__init__ api_key base_url timeout w = (Ok self, w') →
  (ends_in "/" base_url = false → BatchRouter._base_url self = base_url) ∧
  rstrip "/" (BatchRouter._base_url self) = BatchRouter._base_url self.
Proof.
  intros Hinit.
  destruct (init_ok _ _ _ _ _ _ Hinit) as (_ & _ & _ & -> & _).
  split.
  - apply rstrip_unchanged.
  - apply rstrip_unchanged, rstrip_end.
Qed.

(** The test suite's custom base URL. *)
Lemma base_url_kept_without_trailing_slash_witness :
  BatchRouter._base_url
    (BatchRouter.mk "br_test_key_123" (rstrip "/" "https://custom.api.com")
       BatchRouter.DEFAULT_TIMEOUT
       (httpx.mk_Client BatchRouter.DEFAULT_TIMEOUT))
  = "https://custom.api.com".
Proof.
  destruct (base_url_kept_without_trailing_slash (Some "br_test_key_123")
              "https://custom.api.com" BatchRouter.DEFAULT_TIMEOUT
              Sample.world0 _ _ eq_refl)
    as (Hkept & _).
  apply Hkept. reflexivity.
Defined.

(** ** Listings *)

Lemma run_ret_bind {A B} (a : A) (k : A → M B) w :
  (mret a ≫= k) w = k a w.
Proof. reflexivity. Qed.

Lemma construct_run {A} (validate : gmap string pyval → Result A) v w :
  construct validate v w
  = (match v with
     | PDict d => validate d
     | _ => Raise (PyExc "TypeError")
     end, w).
Proof. by destruct v. Qed.

Lemma mapM_construct_ok {A} (validate : gmap string pyval → Result A)
    (items : list pyval) (w : World) (ds : list A) (w' : World) :
  mapM (construct validate) items w = (Ok ds, w') ↔
  Forall2 (validated validate) items ds ∧ w' = w.
Proof.
  revert ds w'. induction items as [|item items IH]; intros ds w'; simpl.
  - split.
    + intros [= <- <-]. split; [constructor|reflexivity].
    + intros [Hall ->]. by inversion Hall.
  - rewrite run_bind, construct_run.
    destruct item; try (split; [done|intros [Hall _]; inversion Hall as
      [|? ? ? ? (fields & Hitem & _)]; discriminate]).
    destruct (validate d) as [x|e] eqn:Hvalidate.
    + rewrite run_bind.
      destruct (mapM (construct validate) items w) as [[xs|e] w1] eqn:Hrest.
      * split.
        -- intros [= <- <-].
           destruct (proj1 (IH xs w1) eq_refl) as [Hall ->].
           split; [|reflexivity]. constructor; [by exists d|exact Hall].
        -- intros [Hall ->].
           inversion Hall as [|? y ? ys Hval Hys]; subst.
           destruct Hval as (fields & Hitem & Hy).
           injection Hitem as <-.
           rewrite Hvalidate in Hy. injection Hy as <-.
           pose proof (proj2 (IH ys w) (conj Hys eq_refl)) as Hok.
           by injection Hok as -> ->.
      * split; [done|]. intros [Hall ->].
        inversion Hall as [|? y ? ys _ Hys]; subst.
        pose proof (proj2 (IH ys w) (conj Hys eq_refl)) as Hok.
        discriminate.
    + split; [done|]. intros [Hall _].
      inversion Hall as [|? y ? ys Hval Hys]; subst.
      destruct Hval as (fields & Hitem & Hy).
      injection Hitem as <-. by rewrite Hvalidate in Hy.
Qed.

Lemma mapM_construct_rejected {A} (validate : gmap string pyval → Result A)
    (items : list pyval) (w : World) :
  Exists (rejected validate) items →
  ∃ e, mapM (construct validate) items w = (Raise e, w).
Proof.
  induction 1 as [item items Hbad|item items Hbad IH]; simpl;
    rewrite run_bind, construct_run.
  - destruct item; try by eexists. destruct Hbad as (e & ->). by eexists.
  - destruct item; try by eexists.
    destruct (validate d) as [x|e]; [|by eexists].
    rewrite run_bind. destruct IH as (e & ->). by eexists.
Qed.

Lemma list_run `{Platform} (self : BatchRouter.t) (page page_size : Z)
    (w : World) (response : pyval) (w' : World) :
  BatchRouter._request self "GET" "/v1/datasets"
    (Some (<["page" := PInt page]> (<["page_size" := PInt page_size]> ∅)))
    None None None w = (Ok response, w') →
  Datasets.list_ self page page_size w
  = (data ← py_get response "data" (PList []);
     items ← py_iter data;
     mapM (construct validate_Dataset) items) w'.
Proof. intros Hrequest. unfold Datasets.list_. by rewrite run_bind, Hrequest. Qed.

(** X8. [Datasets.list] sends one GET of [/v1/datasets] whose query holds
    exactly the given [page] and [page_size]. When the decoded body is an
    object with no ["data"] key, or with an empty ["data"] list, the result
    is the empty list, returned normally. *)
Theorem list_absent_data_is_empty `{Platform} (self : BatchRouter.t)
    (page page_size : Z) (w : World) :
  (∃ req,
     requests_of (events (Datasets.list_ self page page_size w).2)
       = (requests_of (events w) ++ [req])%list ∧
     httpx.method req = "GET" ∧
     httpx.url req = BatchRouter._base_url self +:+ "/api/v1/datasets" ∧
     httpx.params req
       = Some {[ "page" := PInt page; "page_size" := PInt page_size ]} ∧
     httpx.json req = None) ∧
  (∀ fields w',
     BatchRouter._request self "GET" "/v1/datasets"
       (Some (<["page" := PInt page]> (<["page_size" := PInt page_size]> ∅)))
       None None None w = (Ok (PDict fields), w') →
     fields !! "data" = None ∨ fields !! "data" = Some (PList []) →
     Datasets.list_ self page page_size w = (Ok [], w')).
Proof.
  split.
  - eexists. split; [apply list_sends_one|]. by repeat split.
  - intros fields w' Hrequest Hdata.
    rewrite (list_run _ _ _ _ _ _ Hrequest). simpl.
    by destruct Hdata as [-> | ->].
Qed.

(** The test suite's empty page. *)
Lemma list_absent_data_is_empty_witness :
  ∃ w',
    Datasets.list_
      (H := Sample.platform
              (Ok (Sample.ok_response
                     (PDict (<["data" := PList []]> {[ "total" := PInt 0 ]})))))
      Sample.client 2 50 Sample.world0
    = (Ok [], w').
Proof.
  destruct (@list_absent_data_is_empty
              (Sample.platform
                 (Ok (Sample.ok_response
                        (PDict (<["data" := PList []]>
                                  {[ "total" := PInt 0 ]})))))
              Sample.client 2 50 Sample.world0)
    as (_ & Hempty).
  eexists. apply (Hempty _ _ eq_refl). right. reflexivity.
Defined.

(** X9. When the value of the request is not an object (the [None] of a 204
    answer, a bare list, a string, a number), [Datasets.list] raises
    AttributeError: it returns the empty list only for an object. *)
Theorem list_needs_an_object `{Platform} (self : BatchRouter.t)
    (page page_size : Z) (w : World) (response : pyval) (w' : World) :
  BatchRouter._request self "GET" "/v1/datasets"
    (Some (<["page" := PInt page]> (<["page_size" := PInt page_size]> ∅)))
    None None None w = (Ok response, w') →
  (∀ fields, response ≠ PDict fields) →
  Datasets.list_ self page page_size w = (Raise (PyExc "AttributeError"), w').
Proof.
  intros Hrequest Hshape. rewrite (list_run _ _ _ _ _ _ Hrequest).
  destruct response; try reflexivity. by destruct (Hshape d).
Qed.

(** A 204 answer to a listing. *)
Lemma list_needs_an_object_witness :
  (Datasets.list_
     (H := Sample.platform (Ok (Sample.make_response 204 None EmptyString)))
     Sample.client 1 20 Sample.world0).1
  = Raise (PyExc "AttributeError").
Proof.
  by rewrite (@list_needs_an_object
                (Sample.platform
                   (Ok (Sample.make_response 204 None EmptyString)))
                Sample.client 1 20 Sample.world0 PNone _ eq_refl).
Defined.

(** X10. [Datasets.list] is all or nothing and keeps the server's order:
    over a ["data"] list it returns [datasets] exactly when [datasets] is,
    item by item and in the same order, what validation makes of the items;
    one item that is not an object, or that validation rejects, makes the
    whole call raise. *)
Theorem list_validates_in_order `{Platform} (self : BatchRouter.t)
    (page page_size : Z) (w : World) (fields : gmap string pyval)
    (items : list pyval) (w' : World) :
  BatchRouter._request self "GET" "/v1/datasets"
    (Some (<["page" := PInt page]> (<["page_size" := PInt page_size]> ∅)))
    None None None w = (Ok (PDict fields), w') →
  fields !! "data" = Some (PList items) →
  (∀ datasets,
     Datasets.list_ self page page_size w = (Ok datasets, w') ↔
     Forall2 (validated validate_Dataset) items datasets) ∧
  (Exists (rejected validate_Dataset) items →
   ∃ e, Datasets.list_ self page page_size w = (Raise e, w')).
Proof.
  intros Hrequest Hdata. rewrite (list_run _ _ _ _ _ _ Hrequest).
  simpl. rewrite Hdata. simpl.
  rewrite run_ret_bind. simpl. rewrite run_ret_bind. split.
  - intros datasets. rewrite mapM_construct_ok.
    split; [by intros [Hall _]|by intros Hall; split].
  - intros Hbad. by apply mapM_construct_rejected.
Qed.

(** A page whose second item lacks its required fields: the call raises. *)
Lemma list_validates_in_order_witness :
  ∃ e w',
    Datasets.list_
      (H := Sample.platform
              (Ok (Sample.ok_response
                     (PDict {[ "data" :=
                        PList [Sample.dataset_json "ds_1" "alpha";
                               PDict {[ "id" := PStr "ds_2" ]}] ]}))))
      Sample.client 1 20 Sample.world0
    = (Raise e, w').
Proof.
  destruct (@list_validates_in_order
              (Sample.platform
                 (Ok (Sample.ok_response
                        (PDict {[ "data" :=
                           PList [Sample.dataset_json "ds_1" "alpha";
                                  PDict {[ "id" := PStr "ds_2" ]}] ]}))))
              Sample.client 1 20 Sample.world0 _
              [Sample.dataset_json "ds_1" "alpha";
               PDict {[ "id" := PStr "ds_2" ]}]
              _ eq_refl)
    as (_ & Hbad); [vm_compute; reflexivity|].
  destruct Hbad as (e & Hrun).
  - apply Exists_cons_tl, Exists_cons_hd. by eexists.
  - eexists e, _. exact Hrun.
Defined.

(** ** Lookups by name and by id *)

(** X11. [Datasets.get_by_name] keeps absence and failure apart: an
    exception of the listing (an SDK error, a transport or a validation
    failure) is raised unchanged, and [None] is returned only after a
    listing that succeeded and held no dataset of that name. *)
Theorem get_by_name_none_means_listed `{Platform} (self : BatchRouter.t)
    (name : string) (w : World) :
  (∀ e w',
     Datasets.list_ self 1 100 w = (Raise e, w') →
     Datasets.get_by_name self name w = (Raise e, w')) ∧
  (∀ w',
     Datasets.get_by_name self name w = (Ok None, w') →
     ∃ datasets,
       Datasets.list_ self 1 100 w = (Ok datasets, w') ∧
       Forall (λ x, types.Dataset_name x ≠ name) datasets).
Proof.
  split.
  - intros e w' Hlist. unfold Datasets.get_by_name, Datasets.page_default.
    by rewrite run_bind, Hlist.
  - intros w' Hget. unfold Datasets.get_by_name, Datasets.page_default in Hget.
    apply run_bind_inv_ok in Hget as (datasets & w1 & Hlist & Hret).
    injection Hret as Hscan ->. exists datasets. split; [exact Hlist|].
    destruct (scan_first name datasets)
      as [(pre & x & post & Hsome & _)|(_ & Hall)]; [congruence|exact Hall].
Qed.

(** An expired key during the listing: AuthenticationError, not [None]. *)
Lemma get_by_name_none_means_listed_witness :
  ∃ w',
    Datasets.get_by_name
      (H := Sample.platform
              (Ok (Sample.make_response 401
                     (Some (Sample.detail "Invalid API key")) EmptyString)))
      Sample.client "my-dataset" Sample.world0
    = (Raise (SdkError (exceptions.AuthenticationError
                          (PStr "Invalid API key"))), w').
Proof.
  destruct (@get_by_name_none_means_listed
              (Sample.platform
                 (Ok (Sample.make_response 401
                        (Some (Sample.detail "Invalid API key")) EmptyString)))
              Sample.client "my-dataset" Sample.world0)
    as (Hraise & _).
  eexists. apply Hraise. reflexivity.
Defined.

(** X12. The lookups by id do not turn a failure status into an absence:
    on every response that is not a success, [Datasets.get] and [Models.get]
    raise the SDK error selected by the status (NotFoundError for a 404),
    and [Models.get] does not return [None]. *)
Theorem get_raises_on_failure `{Platform} (self : BatchRouter.t)
    (id : string) (w : World) (response : httpx.Response) :
  httpx.is_success response = false →
  (transport w (request_of self "GET" ("/v1/datasets/" +:+ id)
                  None None None None) = Ok response →
   ∃ e w',
     Datasets_get self id w = (Raise (SdkError e), w') ∧
     selected_by_status (httpx.status_code response) e) ∧
  (transport w (request_of self "GET" ("/v1/routing/models/" +:+ id)
                  None None None None) = Ok response →
   ∃ e w',
     Models.get self id w = (Raise (SdkError e), w') ∧
     selected_by_status (httpx.status_code response) e).
Proof.
  intros Hfail. split; intros Hsend.
  - unfold Datasets_get. rewrite run_bind, request_run, Hsend, Hfail.
    eexists _, _. split; [reflexivity|apply select_error_table].
  - unfold Models.get. rewrite run_bind, request_run, Hsend, Hfail.
    eexists _, _. split; [reflexivity|apply select_error_table].
Qed.

(** A 404 for an unknown model name. *)
Lemma get_raises_on_failure_witness :
  ∃ e w',
    Models.get
      (H := Sample.platform
              (Ok (Sample.make_response 404
                     (Some (Sample.detail "Model not found")) EmptyString)))
      Sample.client "no-such-model" Sample.world0
    = (Raise (SdkError e), w') ∧
    exceptions.cls e = exceptions.NotFoundError_cls.
Proof.
  destruct (@get_raises_on_failure
              (Sample.platform
                 (Ok (Sample.make_response 404
                        (Some (Sample.detail "Model not found")) EmptyString)))
              Sample.client "no-such-model" Sample.world0
              (Sample.make_response 404
                 (Some (Sample.detail "Model not found")) EmptyString)
              eq_refl)
    as (_ & Hmodel).
  destruct (Hmodel eq_refl) as (e & w' & Hrun & _ & Hnotfound & _).
  exists e, w'. split; [exact Hrun|]. by apply Hnotfound.
Defined.

(** X13. [Datasets.delete] sends one DELETE of [/v1/datasets/<id>] with no
    body. On a 204 it returns [None] without decoding anything. On any
    other success status it returns [None] only if the body decodes as
    JSON; a body that does not decode makes the delete raise the decode
    exception, although the server reported success. *)
Theorem delete_outcomes `{Platform} (self : BatchRouter.t)
    (dataset_id : string) (w : World) (response : httpx.Response) :
  transport w (request_of self "DELETE" ("/v1/datasets/" +:+ dataset_id)
                 None None None None) = Ok response →
  httpx.is_success response = true →
  requests_of (events (Datasets_delete self dataset_id w).2)
    = (requests_of (events w)
       ++ [request_of self "DELETE" ("/v1/datasets/" +:+ dataset_id)
             None None None None])%list ∧
  (httpx.status_code response = 204 →
   (Datasets_delete self dataset_id w).1 = Ok tt ∧
   decodes_of (events (Datasets_delete self dataset_id w).2)
     = decodes_of (events w)) ∧
  (httpx.status_code response ≠ 204 →
   (∀ v, httpx.json_result response = Ok v →
         (Datasets_delete self dataset_id w).1 = Ok tt) ∧
   (∀ e, httpx.json_result response = Raise e →
         (Datasets_delete self dataset_id w).1 = Raise e)).
Proof.
  intros Hsend Hok. unfold Datasets_delete.
  split; [|split].
  - rewrite run_bind_stateless by (intros; apply stateless_ret).
    apply request_sends_one.
  - intros Hcode. rewrite run_bind, request_run, Hsend, Hok, Hcode. simpl.
    split; [reflexivity|]. rewrite decodes_of_app. simpl. lia.
  - intros Hcode. apply Z.eqb_neq in Hcode.
    rewrite run_bind, request_run, Hsend, Hok, Hcode.
    split; [intros v ->|intros e ->]; reflexivity.
Qed.

(** A 200 answer to a delete with an empty body: the delete raises. *)
Lemma delete_outcomes_witness :
  (Datasets_delete
     (H := Sample.platform (Ok (Sample.make_response 200 None EmptyString)))
     Sample.client "ds_123" Sample.world0).1
  = Raise (PyExc "Exception").
Proof.
  destruct (@delete_outcomes
              (Sample.platform
                 (Ok (Sample.make_response 200 None EmptyString)))
              Sample.client "ds_123" Sample.world0 _ eq_refl eq_refl)
    as (_ & _ & Hother).
  destruct Hother as (_ & Hraise); [discriminate|].
  apply Hraise. reflexivity.
Defined.

(** ** Uploads *)

Lemma upload_file_sends_one `{Platform} (self : BatchRouter.t)
    (file : list Byte.byte) (name : string) (description : option string)
    (w : World) :
  requests_of (events (Datasets._upload_file self file name description w).2)
  = (requests_of (events w)
     ++ [request_of self "POST" "/v1/datasets" None None
           (Some (upload_data name description))
           (Some (upload_files name file))])%list.
Proof.
  unfold Datasets._upload_file.
  rewrite run_bind_stateless by (intros; apply stateless_construct).
  apply request_sends_one.
Qed.

Lemma optional_field_iff (o : option string) (v : pyval) :
  (if opt_str_truthy o then PStr <$> o else None) = Some v ↔
  ∃ d, o = Some d ∧ d ≠ EmptyString ∧ v = PStr d.
Proof.
  destruct o as [[|a d]|]; simpl; split.
  - discriminate.
  - intros (d' & Hd & Hne & _). injection Hd as <-. by destruct Hne.
  - intros Hv. injection Hv as <-. exists (String a d). by repeat split.
  - intros (d' & Hd & _ & ->). by injection Hd as <-.
  - discriminate.
  - intros (d' & Hd & _). discriminate.
Qed.

Lemma upload_data_lookup (name : string) (description : option string) :
  upload_data name description !! "name" = Some (PStr name) ∧
  upload_data name description !! "description"
    = (if opt_str_truthy description then PStr <$> description else None).
Proof.
  unfold upload_data.
  destruct description as [[|a d]|]; simpl; by simplify_map_eq.
Qed.

(** X14. The two local failures of [Datasets.upload] happen before anything
    is sent: a file object without a [name] raises ValueError, and a path
    that cannot be opened raises the exception of [open]; in both cases the
    world is untouched, so no request was made. *)
Theorem upload_fails_before_request `{Platform} `{Files}
    (self : BatchRouter.t) (content : list Byte.byte) (path : string)
    (name description : option string) (w : World) :
  Datasets_upload self (FromStream content) None description w
    = (Raise (PyExc "ValueError"), w) ∧
  (∀ e, open_rb path = Raise e →
        Datasets_upload self (FromPath path) name description w
          = (Raise e, w)).
Proof.
  split; [reflexivity|].
  intros e Hopen. unfold Datasets_upload. by rewrite run_bind; run; rewrite Hopen.
Qed.

(** A path that does not exist. *)
Lemma upload_fails_before_request_witness :
  Datasets_upload
    (H := Sample.platform (Ok SampleFiles.upload_ok))
    (H0 := SampleFiles.files)
    Sample.client (FromPath "/data/missing.jsonl") None None Sample.world0
  = (Raise (PyExc "FileNotFoundError"), Sample.world0).
Proof.
  destruct (@upload_fails_before_request
              (Sample.platform (Ok SampleFiles.upload_ok)) SampleFiles.files
              Sample.client [] "/data/missing.jsonl" None None Sample.world0)
    as (_ & Hopen).
  apply Hopen. reflexivity.
Defined.

(** X15. An upload that gets past the local checks sends one multipart
    POST of [/v1/datasets]: no JSON body and no query; one file part
    ["file"] holding the file's bytes under the dataset name with type
    [application/jsonl]; the form field ["name"], and ["description"] exactly
    when the argument is a non-empty string; the bearer header, and no
    [Content-Type] header. The dataset name is the [name] argument when one
    is given (the empty string included) and the final component of the path
    otherwise. *)
Theorem upload_request `{Platform} `{Files} (self : BatchRouter.t)
    (file : upload_source) (name description : option string) (w : World)
    (content : list Byte.byte) (n : string) :
  (file = FromStream content ∧ name = Some n) ∨
  (∃ path, file = FromPath path ∧ open_rb path = Ok content ∧
           n = default (path_name path) name) →
  ∃ req form,
    requests_of (events (Datasets_upload self file name description w).2)
      = (requests_of (events w) ++ [req])%list ∧
    httpx.method req = "POST" ∧
    httpx.url req = BatchRouter._base_url self +:+ "/api/v1/datasets" ∧
    httpx.json req = None ∧
    httpx.params req = None ∧
    httpx.files req
      = Some {[ "file" := httpx.mk_FilePart n content "application/jsonl" ]} ∧
    httpx.data req = Some form ∧
    form !! "name" = Some (PStr n) ∧
    (∀ v, form !! "description" = Some v ↔
          ∃ d, description = Some d ∧ d ≠ EmptyString ∧ v = PStr d) ∧
    httpx.headers req !! "Authorization"
      = Some ("Bearer " +:+ BatchRouter._api_key self) ∧
    httpx.headers req !! "Content-Type" = None.
Proof.
  intros Hfile.
  assert (Hsent :
    requests_of (events (Datasets_upload self file name description w).2)
    = (requests_of (events w)
       ++ [request_of self "POST" "/v1/datasets" None None
             (Some (upload_data n description))
             (Some (upload_files n content))])%list).
  { destruct Hfile as [[-> ->]|(path & -> & Hopen & ->)];
      unfold Datasets_upload.
    - apply upload_file_sends_one.
    - rewrite run_bind. unfold of_result at 1. rewrite Hopen.
      destruct name; cbv [from_option id]; apply upload_file_sends_one. }
  destruct (upload_data_lookup n description) as (Hname & Hdescription).
  destruct (request_of_headers self "POST" "/v1/datasets" None None
              (Some (upload_data n description))
              (Some (upload_files n content))) as (Hauth & _ & Hct).
  eexists _, _. split; [exact Hsent|].
  do 6 (split; [reflexivity|]). split; [exact Hname|].
  split; [|split; [exact Hauth|exact Hct]].
  intros v. rewrite Hdescription. apply optional_field_iff.
Qed.

(** The test suite's upload from a path, without a name: the file part and
    the form field carry the path's last component. *)
Lemma upload_request_witness :
  ∃ req,
    requests_of
      (events
         (Datasets_upload
            (H := Sample.platform (Ok SampleFiles.upload_ok))
            (H0 := SampleFiles.files)
            Sample.client (FromPath "/data/train.jsonl") None None
            Sample.world0).2)
      = [req] ∧
    httpx.files req
      = Some {[ "file" := httpx.mk_FilePart "train.jsonl"
                            SampleFiles.train_bytes "application/jsonl" ]} ∧
    httpx.headers req !! "Content-Type" = None.
Proof.
  destruct (@upload_request
              (Sample.platform (Ok SampleFiles.upload_ok)) SampleFiles.files
              Sample.client (FromPath "/data/train.jsonl") None None
              Sample.world0 SampleFiles.train_bytes "train.jsonl")
    as (req & form & Hsent & _ & _ & _ & _ & Hfiles & _ & _ & _ & _ & Hct).
  { right. exists "/data/train.jsonl". repeat split; reflexivity. }
  exists req. split; [exact Hsent|]. split; [exact Hfiles|exact Hct].
Defined.

(** ** Endpoints *)

Lemma request_sent_bare `{Platform} {B} (self : BatchRouter.t)
    (method path : string) (params : option (gmap string pyval))
    (k : pyval → M B) (w : World) :
  (∀ v, stateless (k v)) →
  sent_bare self w
    ((BatchRouter._request self method path params None None None ≫= k) w).2
    method path.
Proof.
  intros Hk. exists (request_of self method path params None None None).
  split; [|by repeat split].
  rewrite run_bind_stateless by exact Hk. apply request_sends_one.
Qed.

(** X16. The endpoint of every operation that takes no body: each call
    sends exactly one request (no retry on failure, no second page), with
    the method and the path below under [<base>/api], and with no JSON
    body, form field or file part. *)
Theorem endpoints `{Platform} `{Files} (self : BatchRouter.t) (id : string)
    (page page_size : Z) (w : World) :
  sent_bare self w (Datasets_get self id w).2 "GET" ("/v1/datasets/" +:+ id) ∧
  sent_bare self w (Datasets_delete self id w).2
    "DELETE" ("/v1/datasets/" +:+ id) ∧
  sent_bare self w (Batches_list self page page_size w).2
    "GET" "/v1/batches" ∧
  sent_bare self w (Batches_get self id w).2 "GET" ("/v1/batches/" +:+ id) ∧
  sent_bare self w (Batches_cancel self id w).2
    "POST" ("/v1/batches/" +:+ id +:+ "/cancel") ∧
  sent_bare self w (Batches_download_results self id w).2
    "GET" ("/v1/batches/" +:+ id +:+ "/results") ∧
  sent_bare self w (Batches_download_errors self id w).2
    "GET" ("/v1/batches/" +:+ id +:+ "/errors") ∧
  sent_bare self w (Models_list self w).2 "GET" "/v1/routing/models" ∧
  sent_bare self w (Models.get self id w).2
    "GET" ("/v1/routing/models/" +:+ id).
Proof.
  repeat split.
  - apply request_sent_bare. intros v. apply stateless_construct.
  - apply request_sent_bare. intros v. apply stateless_ret.
  - apply request_sent_bare. intros v.
    apply stateless_bind; [apply stateless_py_get|]. intros data.
    apply stateless_bind; [apply stateless_py_iter|]. intros items.
    apply stateless_mapM. intros x. apply stateless_construct.
  - apply request_sent_bare. intros v. apply stateless_construct.
  - apply request_sent_bare. intros v. apply stateless_construct.
  - eexists. split; [apply request_raw_sends_one|]. by repeat split.
  - eexists. split; [apply request_raw_sends_one|]. by repeat split.
  - apply request_sent_bare. intros v.
    apply stateless_bind; [apply stateless_py_iter|]. intros items.
    apply stateless_mapM. intros x. apply stateless_construct.
  - apply request_sent_bare. intros v. destruct (truthy v).
    + apply stateless_bind; [apply stateless_construct|].
      intros m. apply stateless_ret.
    + apply stateless_ret.
Qed.

(** X17. The two downloads return the response's bytes as they are on every
    success response, an empty body included, and raise the SDK error
    selected by the status on every other response. *)
Theorem download_outcomes `{Platform} (self : BatchRouter.t)
    (batch_id : string) (w : World) (response : httpx.Response) :
  (transport w (request_of self "GET"
                  ("/v1/batches/" +:+ batch_id +:+ "/results")
                  None None None None) = Ok response →
   (httpx.is_success response = true →
    (Batches_download_results self batch_id w).1
      = Ok (httpx.content response)) ∧
   (httpx.is_success response = false →
    ∃ e, (Batches_download_results self batch_id w).1 = Raise (SdkError e) ∧
         selected_by_status (httpx.status_code response) e)) ∧
  (transport w (request_of self "GET"
                  ("/v1/batches/" +:+ batch_id +:+ "/errors")
                  None None None None) = Ok response →
   (httpx.is_success response = true →
    (Batches_download_errors self batch_id w).1
      = Ok (httpx.content response)) ∧
   (httpx.is_success response = false →
    ∃ e, (Batches_download_errors self batch_id w).1 = Raise (SdkError e) ∧
         selected_by_status (httpx.status_code response) e)).
Proof.
  split; intros Hsend;
    unfold Batches_download_results, Batches_download_errors;
    rewrite request_raw_run, Hsend; split; intros ->; simpl;
    try reflexivity;
    (eexists; split; [reflexivity|apply select_error_table]).
Qed.

(** A job without failures: the errors file is the empty byte string. *)
Lemma download_outcomes_witness :
  (Batches_download_errors
     (H := Sample.platform (Ok (Sample.ok_response PNone)))
     Sample.client "batch_123" Sample.world0).1
  = Ok [].
Proof.
  destruct (@download_outcomes
              (Sample.platform (Ok (Sample.ok_response PNone)))
              Sample.client "batch_123" Sample.world0
              (Sample.ok_response PNone))
    as (_ & Herrors).
  destruct (Herrors eq_refl) as (Hok & _).
  apply Hok. reflexivity.
Defined.

(** ** Bodies of the wrong shape *)

Lemma models_list_run `{Platform} (self : BatchRouter.t) (w : World)
    (response : pyval) (w' : World) :
  BatchRouter._request self "GET" "/v1/routing/models" None None None None w
    = (Ok response, w') →
  Models_list self w
  = (items ← py_iter response; mapM (construct validate_Model) items) w'.
Proof. intros Hrequest. unfold Models_list. by rewrite run_bind, Hrequest. Qed.

(** X18. [Models.list] iterates the decoded body itself. Over a list it
    returns exactly the models validation makes of the items, in order (so
    the empty list for an empty list), and raises if one item is rejected.
    The [None] of a 204 answer and a non-empty object, such as a paginated
    envelope, raise TypeError. *)
Theorem models_list_bodies `{Platform} (self : BatchRouter.t) (w : World)
    (response : pyval) (w' : World) :
  BatchRouter._request self "GET" "/v1/routing/models" None None None None w
    = (Ok response, w') →
  (∀ items, response = PList items →
     (∀ models,
        Models_list self w = (Ok models, w') ↔
        Forall2 (validated validate_Model) items models) ∧
     (Exists (rejected validate_Model) items →
      ∃ e, Models_list self w = (Raise e, w'))) ∧
  (response = PNone →
   Models_list self w = (Raise (PyExc "TypeError"), w')) ∧
  (∀ envelope, response = PDict envelope → envelope ≠ ∅ →
   Models_list self w = (Raise (PyExc "TypeError"), w')).
Proof.
  intros Hrequest. rewrite (models_list_run _ _ _ _ Hrequest).
  split; [|split].
  - intros items ->. simpl. rewrite run_ret_bind. split.
    + intros models. rewrite mapM_construct_ok.
      split; [by intros [Hall _]|by intros Hall; split].
    + intros Hbad. by apply mapM_construct_rejected.
  - intros ->. reflexivity.
  - intros envelope -> Hne. simpl. rewrite run_ret_bind.
    destruct (map_to_list envelope) as [|[key v] rest] eqn:Hlist.
    + by apply map_to_list_empty_iff in Hlist.
    + reflexivity.
Qed.

(** The test suite's empty model list. *)
Lemma models_list_bodies_witness :
  Models_list (H := Sample.platform (Ok (Sample.ok_response (PList []))))
    Sample.client Sample.world0
  = (Ok [],
     log Ev_json
       (log (Ev_request
               (request_of Sample.client "GET" "/v1/routing/models"
                  None None None None))
          Sample.world0)).
Proof.
  destruct (@models_list_bodies
              (Sample.platform (Ok (Sample.ok_response (PList []))))
              Sample.client Sample.world0 (PList []) _ eq_refl)
    as (Hlist & _).
  destruct (Hlist [] eq_refl) as (Hiff & _).
  apply Hiff. constructor.
Defined.

(** X19. [Models.get] returns [None] for falsy bodies only. A truthy body
    that is not an object (a non-empty list or string, [true], a non-zero
    number) raises TypeError, and a non-empty object that validation rejects
    raises the validation's exception. *)
Theorem models_get_truthy_bodies `{Platform} (self : BatchRouter.t)
    (name : string) (w : World) (response : pyval) (w' : World) :
  BatchRouter._request self "GET" ("/v1/routing/models/" +:+ name)
    None None None None w = (Ok response, w') →
  truthy response = true →
  ((∀ fields, response ≠ PDict fields) →
   Models.get self name w = (Raise (PyExc "TypeError"), w')) ∧
  (∀ fields e, response = PDict fields → validate_Model fields = Raise e →
   Models.get self name w = (Raise e, w')) ∧
  (∀ fields model, response = PDict fields →
   validate_Model fields = Ok model →
   Models.get self name w = (Ok (Some model), w')).
Proof.
  intros Hrequest Htruthy. unfold Models.get.
  rewrite run_bind, Hrequest, Htruthy. rewrite run_bind, construct_run.
  split; [|split].
  - intros Hshape. destruct response; try reflexivity. by destruct (Hshape d).
  - by intros fields e -> ->.
  - by intros fields model -> ->.
Qed.

(** A list where an object was expected. *)
Lemma models_get_truthy_bodies_witness :
  (Models.get
     (H := Sample.platform
             (Ok (Sample.ok_response (PList [PDict {[ "name" := PStr "m" ]}]))))
     Sample.client "m" Sample.world0).1
  = Raise (PyExc "TypeError").
Proof.
  destruct (@models_get_truthy_bodies
              (Sample.platform
                 (Ok (Sample.ok_response
                        (PList [PDict {[ "name" := PStr "m" ]}]))))
              Sample.client "m" Sample.world0
              (PList [PDict {[ "name" := PStr "m" ]}]) _ eq_refl eq_refl)
    as (Hshape & _).
  by rewrite Hshape.
Defined.

(** X20. The operations that build one object from the body,
    [Datasets.get], [Batches.get], [Batches.cancel] and [Batches.create],
    raise TypeError when the request's value is not an object; in
    particular a 204 answer, whose value is [None], makes them raise. *)
Theorem object_expected `{Platform} `{Files} (self : BatchRouter.t)
    (id model : string) (provider description : option string) (w : World)
    (response : pyval) (w' : World) :
  (∀ fields, response ≠ PDict fields) →
  (BatchRouter._request self "GET" ("/v1/datasets/" +:+ id)
     None None None None w = (Ok response, w') →
   Datasets_get self id w = (Raise (PyExc "TypeError"), w')) ∧
  (BatchRouter._request self "GET" ("/v1/batches/" +:+ id)
     None None None None w = (Ok response, w') →
   Batches_get self id w = (Raise (PyExc "TypeError"), w')) ∧
  (BatchRouter._request self "POST" ("/v1/batches/" +:+ id +:+ "/cancel")
     None None None None w = (Ok response, w') →
   Batches_cancel self id w = (Raise (PyExc "TypeError"), w')) ∧
  (BatchRouter._request self "POST" "/v1/batches" None
     (Some (Batches.create_payload id model provider description))
     None None w = (Ok response, w') →
   Batches.create self id model provider description w
     = (Raise (PyExc "TypeError"), w')).
Proof.
  intros Hshape.
  assert (Hconstruct : ∀ A (validate : gmap string pyval → Result A),
            construct validate response w' = (Raise (PyExc "TypeError"), w')).
  { intros A validate. rewrite construct_run.
    destruct response; try reflexivity. by destruct (Hshape d). }
  repeat split; intros Hrequest;
    unfold Datasets_get, Batches_get, Batches_cancel, Batches.create;
    rewrite run_bind, Hrequest; apply Hconstruct.
Qed.

(** A cancel answered with 204. *)
Lemma object_expected_witness :
  (Batches_cancel
     (H := Sample.platform (Ok (Sample.make_response 204 None EmptyString)))
     (H0 := SampleFiles.files)
     Sample.client "batch_123" Sample.world0).1
  = Raise (PyExc "TypeError").
Proof.
  destruct (@object_expected
              (Sample.platform
                 (Ok (Sample.make_response 204 None EmptyString)))
              SampleFiles.files Sample.client "batch_123" "auto" None None
              Sample.world0 PNone
              (log (Ev_request
                      (request_of Sample.client "POST"
                         "/v1/batches/batch_123/cancel" None None None None))
                 Sample.world0))
    as (_ & _ & Hcancel & _); [discriminate|].
  by rewrite (Hcancel eq_refl).
Defined.

(** ** The create body and the context manager *)

(** X21. The body of [Batches.create] never holds a key other than
    [dataset_name], [model], [provider] and [description], and every value
    in it is a string. *)
Theorem create_body_keys (dataset_name model : string)
    (provider description : option string) (key : string) (v : pyval) :
  Batches.create_payload dataset_name model provider description !! key
    = Some v →
  (key = "dataset_name" ∨ key = "model" ∨ key = "provider" ∨
   key = "description") ∧
  ∃ s, v = PStr s.
Proof.
  unfold Batches.create_payload.
  destruct provider as [[|a p]|], description as [[|b q]|]; simpl; intros Hv;
    repeat (apply lookup_insert_Some in Hv as [[<- <-]|[_ Hv]];
            [split; [tauto|by eexists]|]);
    by rewrite lookup_empty in Hv.
Qed.

(** The provider key of a full call. *)
Lemma create_body_keys_witness :
  Batches.create_payload "ds" "gpt-4o" (Some "openai") (Some "nightly run")
    !! "provider" = Some (PStr "openai") ∧
  ∃ s, PStr "openai" = PStr s.
Proof.
  split; [reflexivity|].
  exact (proj2 (create_body_keys "ds" "gpt-4o" (Some "openai")
                  (Some "nightly run") "provider" (PStr "openai") eq_refl)).
Defined.

(** X22. Used as a context manager, the client is closed exactly once, after
    the body, whether the body returns or raises; the body's result or
    exception is what the [with] statement gives (nothing is swallowed),
    and the body gets the client itself. *)
Theorem with_closes_once `{Platform} {A} (self : BatchRouter.t)
    (body : BatchRouter.t → M A) (w : World) :
  with_ self body w = ((body self w).1, log Ev_close (body self w).2).
Proof.
  unfold with_, __enter__, __exit__, BatchRouter.close.
  rewrite run_ret_bind.
  destruct (body self w) as [[a|e] w1]; reflexivity.
Qed.
